(** * A TFTP read-only server: the transfer session and its parsers

    Shallow embedding of [tftp.py] (and of the in-memory block provider of
    [tests.py]) together with the properties of the per-transfer protocol
    state machine: the wire codec, the request and ack parsers, the
    [Download] session and the [TftpDownloadHandler] supervisor.

    Python 2 [str] values are byte strings; they are modelled by [string],
    whose characters are the 256 values of [ascii].  Python integers are
    unbounded and modelled by [Z].  A method that mutates [self] is a
    function from the object to a result and the object afterwards; an
    exception leaves the mutations made before it in place, as in Python. *)

From Stdlib Require Import String Ascii ZArith List Bool Lia DecimalString.
Import ListNotations.

Local Open Scope string_scope.
Local Open Scope Z_scope.

(** ** Exceptions and results *)

(** The exception classes that the program can raise: its own
    [BadDataError], and the built-in ones coming from [struct], from tuple
    unpacking, from [len], from attribute access and from file access. *)
Inductive exn : Type :=
| BadDataError (msg : string)
| struct_error
| ValueError
| TypeError
| AttributeError
| IOError
| OSError.

Inductive result (A : Type) : Type :=
| Return (a : A)
| Raise (e : exn).

Arguments Return {A} a.
Arguments Raise {A} e.

(** What a block provider hands back: a byte string, or [None] when a
    Python function falls off its end. *)
Inductive pyobj : Type :=
| PyStr (s : string)
| PyNone.

(** ** The Python primitives the program uses *)

Module Py.

(** The null byte, written ['\x00'] in the source. *)
Definition NUL : ascii := "000"%char.

(** [s[:n]] *)
Fixpoint slice_to (n : nat) (s : string) : string :=
  match n, s with
  | O, _ => EmptyString
  | S _, EmptyString => EmptyString
  | S n', String c s' => String c (slice_to n' s')
  end.

(** [s[n:]] *)
Fixpoint slice_from (n : nat) (s : string) : string :=
  match n, s with
  | O, _ => s
  | S _, EmptyString => EmptyString
  | S n', String _ s' => slice_from n' s'
  end.

(** [s[a:a+n]] for [0 <= a] *)
Definition slice (a n : nat) (s : string) : string :=
  slice_to n (slice_from a s).

(** [s.split(sep)] for a one-character separator: the fields between the
    occurrences of [sep], always at least one field. *)
Fixpoint split (sep : ascii) (s : string) : list string :=
  match s with
  | EmptyString => [EmptyString]
  | String c s' =>
      if Ascii.eqb c sep then EmptyString :: split sep s'
      else match split sep s' with
           | [] => [String c EmptyString]
           | f :: fs => String c f :: fs
           end
  end.

(** [len(x)]: defined on strings, a [TypeError] on [None]. *)
Definition len (x : pyobj) : result Z :=
  match x with
  | PyStr s => Return (Z.of_nat (String.length s))
  | PyNone => Raise TypeError
  end.

(** ['%s' % i] for an integer [i]: its decimal writing. *)
Definition str_of_int (i : Z) : string := NilZero.string_of_int (Z.to_int i).

Definition byte_of_Z (z : Z) : ascii := ascii_of_N (Z.to_N z).
Definition Z_of_byte (c : ascii) : Z := Z.of_N (N_of_ascii c).

(** [struct.pack('>H', i)]: two bytes, most significant first; an error
    outside the range of an unsigned short. *)
Definition pack_H (i : Z) : result string :=
  if (0 <=? i) && (i <=? 65535)
  then Return (String (byte_of_Z (i / 256))
              (String (byte_of_Z (i mod 256)) EmptyString))
  else Raise struct_error.

(** [struct.unpack('>H', byt)[0]]: an error unless [byt] has exactly two
    bytes. *)
Definition unpack_H (byt : string) : result Z :=
  match byt with
  | String hi (String lo EmptyString) =>
      Return (256 * Z_of_byte hi + Z_of_byte lo)
  | _ => Raise struct_error
  end.

(** [s.startswith('/')] and [s.endswith('/')] *)
Definition startswith_slash (s : string) : bool :=
  match s with
  | String c _ => Ascii.eqb c "/"%char
  | EmptyString => false
  end.

Fixpoint endswith_slash (s : string) : bool :=
  match s with
  | EmptyString => false
  | String c EmptyString => Ascii.eqb c "/"%char
  | String _ s' => endswith_slash s'
  end.

(** [os.path.join(a, b)] of [posixpath], for two components. *)
Definition path_join (a b : string) : string :=
  if startswith_slash b then b
  else if String.eqb a "" || endswith_slash a then a ++ b
  else a ++ "/" ++ b.

(** [c in s] for a character *)
Fixpoint contains (c : ascii) (s : string) : bool :=
  match s with
  | EmptyString => false
  | String d s' => Ascii.eqb d c || contains c s'
  end.

End Py.

(** ** The file system the server runs on

    The directories that exist, each with the names [os.listdir] returns for
    it, and the regular files that can be opened for reading, each with its
    content.  A listed name that is not a readable regular file (a
    sub-directory, say) makes [open] fail.  The program only reads this
    state. *)
Module OS.

Record world : Type := {
  dirs : list (string * list string);
  files : list (string * string)
}.

Fixpoint assoc {A : Type} (k : string) (l : list (string * A)) : option A :=
  match l with
  | [] => None
  | (k', v) :: l' => if String.eqb k k' then Some v else assoc k l'
  end.

(** The calls the program makes on the file system, in order. *)
Inductive event : Type :=
| Listdir (path : string)
| Open (path : string)
| Seek (offset : Z)
| Read (size : Z).

(** [os.listdir(path)] *)
Definition listdir (w : world) (path : string) : result (list string) :=
  match assoc path (dirs w) with
  | Some names => Return names
  | None => Raise OSError
  end.

End OS.

(** ** tftp.py *)

Definition BLOCK_SIZE : Z := 512.

Inductive opcode : Type := RRQ | WRQ | DATA | ACK | ERROR.

Definition opcodeMap (o : opcode) : string :=
  match o with
  | RRQ => String "000" (String "001" "")
  | WRQ => String "000" (String "002" "")
  | DATA => String "000" (String "003" "")
  | ACK => String "000" (String "004" "")
  | ERROR => String "000" (String "005" "")
  end.

Definition intToBytes (i : Z) : result string := Py.pack_H i.

Definition bytesToInt (byt : string) : result Z := Py.unpack_H byt.

(** ** Methods

    A method of a class with instances of type [S] that returns an [A]: it
    takes [self] and gives back what it returns or raises, and [self] as the
    call left it. *)
Definition method (S A : Type) : Type := S -> result A * S.

Definition ret {S A : Type} (a : A) : method S A := fun self => (Return a, self).

Definition raise {S A : Type} (e : exn) : method S A := fun self => (Raise e, self).

Definition bind {S A B : Type} (c : method S A) (k : A -> method S B) : method S B :=
  fun self =>
    match c self with
    | (Return a, self') => k a self'
    | (Raise e, self') => (Raise e, self')
    end.

(** The value of an expression that may raise, inside a method. *)
Definition lift {S A : Type} (r : result A) : method S A := fun self => (r, self).

(** Reading [self], and assigning to its attributes. *)
Definition get {S : Type} : method S S := fun self => (Return self, self).

Definition modify {S : Type} (f : S -> S) : method S unit :=
  fun self => (Return tt, f self).

Declare Scope method_scope.
Delimit Scope method_scope with method.
Notation "x <- c ;; k" := (bind c (fun x => k))
  (at level 61, c at next level, right associativity) : method_scope.
Notation "c ;; k" := (bind c (fun _ => k))
  (at level 61, right associativity) : method_scope.

(** The interface a [Download] needs from its file system: a [getFileData]
    method taking a file name and a block number. *)
Definition provider : Type := string -> Z -> result pyobj.

Module FileSystem.

Record t : Type := { directoryPath : string }.

Definition __init__ (directoryPath : option string) : t :=
  {| directoryPath := match directoryPath with
                      | Some p => p
                      | None => "/tmp/test_tftp"
                      end |}.

(** [open], [seek] to the start of the block, [read] one block.  A file
    that cannot be opened, or a negative offset, is an [IOError]. *)
Definition readBlock (w : OS.world) (path : string) (blockno : Z)
  : result string * list OS.event :=
  match OS.assoc path (OS.files w) with
  | None => (Raise IOError, [OS.Open path])
  | Some content =>
      let offset := (blockno - 1) * BLOCK_SIZE in
      if offset <? 0 then (Raise IOError, [OS.Open path; OS.Seek offset])
      else (Return (Py.slice (Z.to_nat offset) (Z.to_nat BLOCK_SIZE) content),
            [OS.Open path; OS.Seek offset; OS.Read BLOCK_SIZE])
  end.

(** The loop over the listed names: the block of the first name equal to
    the requested one, [BadDataError] when the names run out. *)
Fixpoint getFileData_loop (w : OS.world) (self : t) (requestedFilename : string)
  (blockno : Z) (names : list string) : result string * list OS.event :=
  match names with
  | [] => (Raise (BadDataError "File not found."), [])
  | filename :: names' =>
      if String.eqb requestedFilename filename
      then readBlock w (Py.path_join (directoryPath self) filename) blockno
      else getFileData_loop w self requestedFilename blockno names'
  end.

(** What [getFileData] returns or raises, and the file-system calls it
    made. *)
Definition getFileData (w : OS.world) (self : t) (requestedFilename : string)
  (blockno : Z) : result string * list OS.event :=
  match OS.listdir w (directoryPath self) with
  | Raise e => (Raise e, [OS.Listdir (directoryPath self)])
  | Return names =>
      let (r, evs) := getFileData_loop w self requestedFilename blockno names in
      (r, OS.Listdir (directoryPath self) :: evs)
  end.

(** The object as a block provider, on a file system that stays as it is. *)
Definition as_provider (w : OS.world) (self : t) : provider :=
  fun requestedFilename blockno =>
    match fst (getFileData w self requestedFilename blockno) with
    | Return data => Return (PyStr data)
    | Raise e => Raise e
    end.

End FileSystem.

(** The in-memory provider of tests.py. *)
Module DummyFileSystem.

Record t : Type := { files : list (string * string) }.

Definition __init__ (files : list (string * string)) : t := {| files := files |}.

(** [StringIO(data)], [seek], [read(512)]: a seek before the start goes to
    the start, a read past the end gives the empty string.  Without a
    matching name the function ends and returns [None]. *)
Fixpoint getFileData_loop (filename : string) (blockno : Z)
  (files : list (string * string)) : pyobj :=
  match files with
  | [] => PyNone
  | (myFile, data) :: files' =>
      if String.eqb myFile filename
      then PyStr (Py.slice (Z.to_nat (Z.max 0 ((blockno - 1) * 512))) 512 data)
      else getFileData_loop filename blockno files'
  end.

Definition getFileData (self : t) (filename : string) (blockno : Z) : result pyobj :=
  Return (getFileData_loop filename blockno (files self)).

Definition as_provider (self : t) : provider := getFileData self.

End DummyFileSystem.

Module Ack.

Record t : Type := { blockno : Z }.

Definition __init__ (data : string) : result t :=
  if negb (String.eqb (Py.slice_to 2 data) (opcodeMap ACK))
  then Raise (BadDataError "Message is not an ack.")
  else match bytesToInt (Py.slice_from 2 data) with
       | Return n => Return {| blockno := n |}
       | Raise e => Raise e
       end.

End Ack.

Module ReadRequest.

Record t : Type := { filename : string; mode : string }.

(** The three-way unpacking of the split raises [ValueError] unless there
    are exactly three fields; the third one is bound and not looked at. *)
Definition __init__ (data : string) : result t :=
  if (Nat.ltb (String.length data) 2)
     || negb (String.eqb (Py.slice_to 2 data) (opcodeMap RRQ))
  then Raise (BadDataError ("Got a message that is not a read request: " ++ data))
  else match Py.split Py.NUL (Py.slice_from 2 data) with
       | [filename; mode; nothing] => Return {| filename := filename; mode := mode |}
       | _ => Raise ValueError
       end.

End ReadRequest.

Module Download.

Record t : Type := {
  filename : string;
  mode : string;
  remoteHost : string;
  remotePort : Z;
  blockno : Z;
  fileSystem : provider;
  done : bool
}.

Definition set_blockno (n : Z) (self : t) : t :=
  {| filename := filename self; mode := mode self;
     remoteHost := remoteHost self; remotePort := remotePort self;
     blockno := n; fileSystem := fileSystem self; done := done self |}.

Definition set_done (b : bool) (self : t) : t :=
  {| filename := filename self; mode := mode self;
     remoteHost := remoteHost self; remotePort := remotePort self;
     blockno := blockno self; fileSystem := fileSystem self; done := b |}.

(** Without a file system given, the session reads the default directory
    of the machine [w] it runs on. *)
Definition __init__ (w : OS.world) (readRequest : ReadRequest.t)
  (remoteHost : string) (remotePort : Z) (fileSystem : option provider) : t :=
  {| filename := ReadRequest.filename readRequest;
     mode := ReadRequest.mode readRequest;
     remoteHost := remoteHost;
     remotePort := remotePort;
     blockno := 0;
     fileSystem := match fileSystem with
                   | Some fs => fs
                   | None => FileSystem.as_provider w (FileSystem.__init__ None)
                   end;
     done := false |}.

Local Open Scope method_scope.

Definition nextData : method t (Z * pyobj) :=
  modify (fun self => set_blockno (blockno self + 1) self) ;;
  self <- get ;;
  data <- lift (fileSystem self (filename self) (blockno self)) ;;
  n <- lift (Py.len data) ;;
  (if n <? BLOCK_SIZE then modify (set_done true) else ret tt) ;;
  self <- get ;;
  ret (blockno self, data).

(** ['%s' % x]: a string as it is; [None] cannot reach the formatting,
    [len] has raised before. *)
Definition str_of (x : pyobj) : string :=
  match x with
  | PyStr s => s
  | PyNone => "None"
  end.

Definition makeNextDataMessage : method t string :=
  r <- nextData ;;
  b <- lift (intToBytes (fst r)) ;;
  ret (opcodeMap DATA ++ b ++ str_of (snd r)).

Definition ack (message host : string) (port : Z) : method t string :=
  self <- get ;;
  if negb (String.eqb host (remoteHost self)) || negb (port =? remotePort self)
  then raise (BadDataError "Message from wrong place!")
  else
    ack <- lift (Ack.__init__ message) ;;
    if negb (Ack.blockno ack =? blockno self)
    then raise (BadDataError
                  ("This ack is out of sequence. ack for blockno "
                     ++ Py.str_of_int (Ack.blockno ack)
                     ++ ", current blockno "
                     ++ Py.str_of_int (blockno self)))
    else makeNextDataMessage.

End Download.

Module TftpDownloadHandler.

(** What the handler asks of the reactor and of its transport, in order.
    The delayed call of [timedOut] is taken to be pending whenever it is
    reset, as it is while the port still receives datagrams. *)
Inductive effect : Type :=
| CallLater (period : Z)
| TimeoutReset (period : Z)
| StopListening
| TransportWrite (payload : string) (host : string) (port : Z).

Definition timeoutPeriod : Z := 5.

(** [transport] tells whether the protocol is attached to a transport
    ([self.transport] is [None] otherwise); [download] is unset until
    [startProtocol]; [effects] are the calls made so far, oldest first. *)
Record t : Type := {
  readRequest : ReadRequest.t;
  remoteHost : string;
  remotePort : Z;
  fileSystem : option provider;
  transport : bool;
  download : option Download.t;
  effects : list effect
}.

Definition emit (e : effect) (self : t) : t :=
  {| readRequest := readRequest self; remoteHost := remoteHost self;
     remotePort := remotePort self; fileSystem := fileSystem self;
     transport := transport self; download := download self;
     effects := effects self ++ [e] |}.

Definition set_download (d : Download.t) (self : t) : t :=
  {| readRequest := readRequest self; remoteHost := remoteHost self;
     remotePort := remotePort self; fileSystem := fileSystem self;
     transport := transport self; download := Some d;
     effects := effects self |}.

Definition __init__ (readRequest : ReadRequest.t) (remoteHost : string)
  (remotePort : Z) (fileSystem : option provider) : t :=
  {| readRequest := readRequest; remoteHost := remoteHost;
     remotePort := remotePort; fileSystem := fileSystem;
     transport := false; download := None;
     effects := [CallLater timeoutPeriod] |}.

(** The reactor attaches the protocol to its port before [startProtocol]. *)
Definition makeConnection (self : t) : t :=
  {| readRequest := readRequest self; remoteHost := remoteHost self;
     remotePort := remotePort self; fileSystem := fileSystem self;
     transport := true; download := download self;
     effects := effects self |}.

Local Open Scope method_scope.

(** Looking up a method of [self.transport], which comes before the
    arguments of the call are evaluated. *)
Definition transport_method : method t unit :=
  self <- get ;;
  if transport self then ret tt else raise AttributeError.

(** A call of a method of [self.download], which it mutates in place. *)
Definition on_download {A : Type} (m : method Download.t A) : method t A :=
  fun self =>
    match download self with
    | None => (Raise AttributeError, self)
    | Some d => let (r, d') := m d in (r, set_download d' self)
    end.

Definition timedOut : method t unit :=
  self <- get ;;
  if transport self then modify (emit StopListening) else ret tt.

Definition startProtocol (w : OS.world) : method t unit :=
  modify (fun self =>
            set_download (Download.__init__ w (readRequest self) (remoteHost self)
                            (remotePort self) (fileSystem self)) self) ;;
  self <- get ;;
  transport_method ;;
  message <- on_download Download.makeNextDataMessage ;;
  modify (emit (TransportWrite message (remoteHost self) (remotePort self))).

Definition datagramReceived (data host : string) (port : Z) : method t unit :=
  modify (emit (TimeoutReset timeoutPeriod)) ;;
  isDone <- on_download (fun d => (Return (Download.done d), d)) ;;
  (if isDone : bool
   then transport_method ;; modify (emit StopListening)
   else ret tt) ;;
  transport_method ;;
  message <- on_download (Download.ack data host port) ;;
  modify (emit (TransportWrite message host port)).

End TftpDownloadHandler.

(** ** The scenario of tests.py *)

Definition NUL1 : string := String Py.NUL "".

Fixpoint repeat_string (n : nat) (s : string) : string :=
  match n with
  | O => ""
  | S n' => s ++ repeat_string n' s
  end.

(** ['\x00\x01woo.txt\x00netascii\x00'] *)
Definition goodRequest : string :=
  opcodeMap RRQ ++ "woo.txt" ++ NUL1 ++ "netascii" ++ NUL1.

(** ['0123456789' * 52] *)
Definition fileData : string := repeat_string 52 "0123456789".

Definition noWorld : OS.world := {| OS.dirs := []; OS.files := [] |}.

Definition testProvider : provider :=
  DummyFileSystem.as_provider (DummyFileSystem.__init__ [("woo.txt", fileData)]).

(** ['\x00\x04\x00\x01'] and the like *)
Definition ackBytes (hi lo : ascii) : string :=
  opcodeMap ACK ++ String hi (String lo "").

(** Joining fields with a separator: the inverse of [Py.split]. *)
Fixpoint join (sep : ascii) (fields : list string) : string :=
  match fields with
  | [] => ""
  | [f] => f
  | f :: fields' => f ++ String sep (join sep fields')
  end.

(** ** Sequences of calls *)

(** The session after [n] calls of a method, one after the other; a call
    that raised has still left its mutations behind. *)
Fixpoint after_calls {A : Type} (m : method Download.t A) (n : nat)
  (self : Download.t) : Download.t :=
  match n with
  | O => self
  | S n' => after_calls m n' (snd (m self))
  end.

(** Whether a call of [nextData] returned a payload shorter than a block. *)
Definition short_payload (r : result (Z * pyobj)) : bool :=
  match r with
  | Return (_, PyStr data) => Z.of_nat (String.length data) <? BLOCK_SIZE
  | _ => false
  end.

(** Call number [k] (from 0) of [nextData] on a session returned a short
    payload. *)
Definition short_at (self : Download.t) (k : nat) : bool :=
  short_payload (fst (Download.nextData (after_calls Download.nextData k self))).

(** [n] calls of [makeNextDataMessage] that all return: the messages in
    order.  The first call that raises ends the sequence. *)
Fixpoint produce (n : nat) : method Download.t (list string) :=
  match n with
  | O => ret []
  | S n' =>
      bind Download.makeNextDataMessage (fun m =>
      bind (produce n') (fun ms => ret (m :: ms)))
  end.

(** The session of tests.py, and what it is after its first message. *)
Definition testRequest : ReadRequest.t :=
  {| ReadRequest.filename := "woo.txt"; ReadRequest.mode := "netascii" |}.

Definition testDownload : Download.t :=
  Download.__init__ noWorld testRequest "127.0.0.1" 1111 (Some testProvider).

(** A machine whose served directory exists and is empty, and a session
    on it for a file that is not there. *)
Definition emptyDirWorld : OS.world :=
  {| OS.dirs := [("/tmp/test_tftp", [])]; OS.files := [] |}.

Definition missingFileDownload : Download.t :=
  Download.__init__ emptyDirWorld
    {| ReadRequest.filename := "nope.txt"; ReadRequest.mode := "netascii" |}
    "127.0.0.1" 1111 None.

(** A machine serving one file of two full blocks. *)
Definition twoBlocks : string := repeat_string 128 "01234567".

Definition twoBlocksProvider : provider :=
  DummyFileSystem.as_provider (DummyFileSystem.__init__ [("even.bin", twoBlocks)]).

Definition twoBlocksDownload : Download.t :=
  Download.__init__ noWorld
    {| ReadRequest.filename := "even.bin"; ReadRequest.mode := "netascii" |}
    "10.0.0.7" 2048 (Some twoBlocksProvider).

(** A machine serving "woo.txt" next to a sub-directory. *)
Definition servedWorld : OS.world :=
  {| OS.dirs := [("/tmp/test_tftp", ["woo.txt"; "sub"])];
     OS.files := [("/tmp/test_tftp/woo.txt", fileData);
                  ("/etc/passwd", "root:x:0:0")] |}.

(** The supervisor of the test session, attached to its transport. *)
Definition testHandler : TftpDownloadHandler.t :=
  TftpDownloadHandler.makeConnection
    (TftpDownloadHandler.__init__ testRequest "127.0.0.1" 1111 (Some testProvider)).

(** ** The request listener

    [TftpReadRequestHandler] keeps no state of its own: a datagram is parsed
    as a read request and, when that returns, a new [TftpDownloadHandler]
    for the sender is handed to [reactor.listenUDP] on port 0, with no file
    system given. *)
Module TftpReadRequestHandler.

(** What the listener asks of the reactor. *)
Inductive effect : Type :=
| ListenUDP (port : Z) (protocol : TftpDownloadHandler.t).

Definition datagramReceived (data host : string) (port : Z)
  : result unit * list effect :=
  match ReadRequest.__init__ data with
  | Raise e => (Raise e, [])
  | Return readRequest =>
      (Return tt,
       [ListenUDP 0 (TftpDownloadHandler.__init__ readRequest host port None)])
  end.

End TftpReadRequestHandler.

(** ** Vocabulary for the properties *)

(** [s.count(c)] for a character *)
Fixpoint count (c : ascii) (s : string) : nat :=
  match s with
  | EmptyString => O
  | String d s' => if Ascii.eqb d c then S (count c s') else count c s'
  end.

(** A provider serves [content] under [name]: block [k], from 1, is the
    at most [BLOCK_SIZE] bytes at offset [(k-1) * BLOCK_SIZE]. *)
Definition serves (fs : provider) (name content : string) : Prop :=
  forall k, 1 <= k ->
    fs name k = Return (PyStr (Py.slice (Z.to_nat ((k - 1) * BLOCK_SIZE))
                                 (Z.to_nat BLOCK_SIZE) content)).

(** The payloads of data messages, one after the other: [m[4:]] of each. *)
Fixpoint payloads (msgs : list string) : string :=
  match msgs with
  | [] => ""
  | m :: msgs' => Py.slice_from 4 m ++ payloads msgs'
  end.

(** The session after [ack] was called on each datagram in turn, whatever
    the calls returned or raised. *)
Fixpoint ack_each (datagrams : list (string * string * Z)) (self : Download.t)
  : Download.t :=
  match datagrams with
  | [] => self
  | (message, host, port) :: datagrams' =>
      ack_each datagrams' (snd (Download.ack message host port self))
  end.

(** The datagrams of [datagrams] delivered to a handler in turn. *)
Fixpoint deliver (datagrams : list (string * string * Z))
  (h : TftpDownloadHandler.t) : TftpDownloadHandler.t :=
  match datagrams with
  | [] => h
  | (data, host, port) :: datagrams' =>
      deliver datagrams'
        (snd (TftpDownloadHandler.datagramReceived data host port h))
  end.

(** The data messages among the effects of a handler, with their
    destinations. *)
Fixpoint written (effects : list TftpDownloadHandler.effect)
  : list (string * string * Z) :=
  match effects with
  | [] => []
  | TftpDownloadHandler.TransportWrite payload host port :: effects' =>
      (payload, host, port) :: written effects'
  | _ :: effects' => written effects'
  end.

(** The paths opened among file-system events. *)
Fixpoint opened (events : list OS.event) : list string :=
  match events with
  | [] => []
  | OS.Open path :: events' => path :: opened events'
  | _ :: events' => opened events'
  end.

(** A client that acknowledges [n] times the block the session of the
    handler is at, from the pinned address. *)
Fixpoint deliver_acks (n : nat) (h : TftpDownloadHandler.t)
  : TftpDownloadHandler.t :=
  match n with
  | O => h
  | S n' =>
      match TftpDownloadHandler.download h with
      | Some d =>
          match intToBytes (Download.blockno d) with
          | Return b =>
              deliver_acks n'
                (snd (TftpDownloadHandler.datagramReceived (opcodeMap ACK ++ b)
                        (Download.remoteHost d) (Download.remotePort d) h))
          | Raise _ => h
          end
      | None => h
      end
  end.

(** What a handler does for each message of a transfer under way: the
    timer is reset and the message written. *)
Fixpoint acked_writes (msgs : list string) (host : string) (port : Z)
  : list TftpDownloadHandler.effect :=
  match msgs with
  | [] => []
  | m :: msgs' =>
      TftpDownloadHandler.TimeoutReset TftpDownloadHandler.timeoutPeriod
        :: TftpDownloadHandler.TransportWrite m host port
        :: acked_writes msgs' host port
  end.


(** A provider that cannot read the first block of anything and serves the
    test file from the second block on, and a new session over it. *)
Definition flakyProvider : provider :=
  fun filename blockno =>
    if blockno =? 1 then Raise IOError else testProvider filename blockno.

Definition flakyDownload : Download.t :=
  Download.__init__ noWorld testRequest "127.0.0.1" 1111 (Some flakyProvider).

(** ** Facts about the primitives *)

Section Primitives.

Lemma slice_to_length (n : nat) (s : string) :
  String.length (Py.slice_to n s) = Nat.min n (String.length s).
Proof.
  revert s; induction n as [|n IH]; intros [|c s]; simpl; auto.
Qed.

Lemma slice_from_length (n : nat) (s : string) :
  String.length (Py.slice_from n s) = (String.length s - n)%nat.
Proof.
  revert s; induction n as [|n IH]; intros [|c s]; simpl; auto.
Qed.

Lemma slice_to_from (n : nat) (s : string) :
  Py.slice_to n s ++ Py.slice_from n s = s.
Proof.
  revert s; induction n as [|n IH]; intros [|c s]; simpl; auto.
  now rewrite IH.
Qed.

Lemma slice_length (a n : nat) (s : string) :
  String.length (Py.slice a n s) = Nat.min n (String.length s - a).
Proof.
  unfold Py.slice. now rewrite slice_to_length, slice_from_length.
Qed.

Lemma get_slice_from (a i : nat) (s : string) :
  String.get i (Py.slice_from a s) = String.get (a + i) s.
Proof.
  revert s; induction a as [|a IH]; intros [|c s]; simpl; auto.
Qed.

Lemma get_slice_to (n i : nat) (s : string) :
  String.get i (Py.slice_to n s) = if (i <? n)%nat then String.get i s else None.
Proof.
  revert i s; induction n as [|n IH]; intros [|i] [|c s]; simpl; auto;
    try (match goal with
         | |- context [if ?b then _ else _] => destruct b; reflexivity
         end).
Qed.

(** Byte [i] of the slice is byte [a + i] of the string, for [i < n]. *)
Lemma get_slice (a n i : nat) (s : string) :
  String.get i (Py.slice a n s)
  = if (i <? n)%nat then String.get (a + i) s else None.
Proof.
  unfold Py.slice. rewrite get_slice_to, get_slice_from. reflexivity.
Qed.

Lemma Z_of_byte_range (c : ascii) : 0 <= Py.Z_of_byte c < 256.
Proof.
  unfold Py.Z_of_byte. pose proof (N_ascii_bounded c). lia.
Qed.

Lemma Z_of_byte_of_Z (z : Z) : 0 <= z < 256 -> Py.Z_of_byte (Py.byte_of_Z z) = z.
Proof.
  intros H. unfold Py.Z_of_byte, Py.byte_of_Z.
  rewrite N_ascii_embedding by lia. lia.
Qed.

Lemma byte_of_Z_of_byte (c : ascii) : Py.byte_of_Z (Py.Z_of_byte c) = c.
Proof.
  unfold Py.Z_of_byte, Py.byte_of_Z. rewrite N2Z.id. apply ascii_N_embedding.
Qed.

Lemma intToBytes_Return (i : Z) (b : string) :
  intToBytes i = Return b <->
  0 <= i <= 65535 /\
  b = String (Py.byte_of_Z (i / 256)) (String (Py.byte_of_Z (i mod 256)) "").
Proof.
  unfold intToBytes, Py.pack_H.
  destruct (0 <=? i) eqn:H0; destruct (i <=? 65535) eqn:H1; simpl; split;
    try (intros H; inversion H; subst; split; [lia | reflexivity]);
    try discriminate; try (intros [? ?]; subst; try reflexivity; lia).
Qed.

Lemma intToBytes_Raise (i : Z) (e : exn) :
  intToBytes i = Raise e <-> (i < 0 \/ 65535 < i) /\ e = struct_error.
Proof.
  unfold intToBytes, Py.pack_H.
  destruct (0 <=? i) eqn:H0; destruct (i <=? 65535) eqn:H1; simpl; split;
    try discriminate;
    try (intros H; inversion H; subst; split; [lia | reflexivity]);
    try (intros [? ?]; subst; try reflexivity; lia).
Qed.

Lemma bytesToInt_Return (byt : string) (n : Z) :
  bytesToInt byt = Return n <->
  exists hi lo, byt = String hi (String lo "")
                /\ n = 256 * Py.Z_of_byte hi + Py.Z_of_byte lo.
Proof.
  unfold bytesToInt, Py.unpack_H. split.
  - destruct byt as [|hi [|lo [|? ?]]]; try discriminate.
    intros H; inversion H; eauto.
  - intros (hi & lo & -> & ->). reflexivity.
Qed.

Lemma bytesToInt_Raise (byt : string) (e : exn) :
  bytesToInt byt = Raise e <-> String.length byt <> 2%nat /\ e = struct_error.
Proof.
  unfold bytesToInt, Py.unpack_H. split.
  - destruct byt as [|hi [|lo [|? ?]]]; try discriminate;
      intros H; inversion H; split; simpl; auto; lia.
  - intros [H ->]. destruct byt as [|hi [|lo [|? ?]]]; auto.
    now elim H.
Qed.

(** Decoding what [intToBytes] encoded gives the number back. *)
Lemma bytesToInt_intToBytes (i : Z) (b : string) :
  intToBytes i = Return b -> bytesToInt b = Return i.
Proof.
  intros H. apply intToBytes_Return in H as [Hr ->].
  unfold bytesToInt, Py.unpack_H. f_equal.
  rewrite !Z_of_byte_of_Z.
  - pose proof (Z.div_mod i 256). lia.
  - apply Z.mod_pos_bound. lia.
  - split; [apply Z.div_pos; lia | apply Z.div_lt_upper_bound; lia].
Qed.

Lemma bytesToInt_range (byt : string) (n : Z) :
  bytesToInt byt = Return n -> 0 <= n <= 65535.
Proof.
  intros H. apply bytesToInt_Return in H as (hi & lo & -> & ->).
  pose proof (Z_of_byte_range hi). pose proof (Z_of_byte_range lo). lia.
Qed.

Lemma split_not_nil (sep : ascii) (s : string) : Py.split sep s <> [].
Proof.
  destruct s as [|c s]; simpl; try discriminate.
  destruct (Ascii.eqb c sep); try discriminate.
  destruct (Py.split sep s); discriminate.
Qed.

(** No field of a split contains the separator. *)
Lemma split_fields (sep : ascii) (s : string) :
  Forall (fun f => Py.contains sep f = false) (Py.split sep s).
Proof.
  induction s as [|c s IH]; simpl.
  - repeat constructor.
  - destruct (Ascii.eqb c sep) eqn:E.
    + constructor; auto.
    + destruct (Py.split sep s) as [|f fs]; repeat constructor.
      * simpl. now rewrite E.
      * inversion IH; subst. simpl. now rewrite E.
      * now inversion IH.
Qed.

Lemma join_split (sep : ascii) (s : string) : join sep (Py.split sep s) = s.
Proof.
  induction s as [|c s IH]; simpl; auto.
  destruct (Ascii.eqb c sep) eqn:E.
  - apply Ascii.eqb_eq in E; subst c.
    pose proof (split_not_nil sep s).
    destruct (Py.split sep s) as [|f fs]; [congruence|].
    simpl. now rewrite <- IH.
  - pose proof (split_not_nil sep s).
    destruct (Py.split sep s) as [|f fs]; [congruence|].
    rewrite <- IH. destruct fs; reflexivity.
Qed.

Lemma split_no_sep (sep : ascii) (f : string) :
  Py.contains sep f = false -> Py.split sep f = [f].
Proof.
  induction f as [|c f IH]; simpl; auto.
  intros H. apply orb_false_iff in H as [E H].
  rewrite E, (IH H). reflexivity.
Qed.

Lemma split_app_sep (sep : ascii) (f rest : string) :
  Py.contains sep f = false ->
  Py.split sep (f ++ String sep rest) = f :: Py.split sep rest.
Proof.
  induction f as [|c f IH]; simpl.
  - now rewrite Ascii.eqb_refl.
  - intros H. apply orb_false_iff in H as [E H].
    rewrite E, (IH H). reflexivity.
Qed.

Lemma split_join (sep : ascii) (fields : list string) :
  fields <> [] ->
  Forall (fun f => Py.contains sep f = false) fields ->
  Py.split sep (join sep fields) = fields.
Proof.
  induction fields as [|f fs IH]; [congruence|].
  intros _ H. inversion H as [|? ? Hf Hfs]; subst.
  destruct fs as [|g fs].
  - simpl. now apply split_no_sep.
  - change (join sep (f :: g :: fs)) with (f ++ String sep (join sep (g :: fs))).
    rewrite split_app_sep by assumption.
    rewrite IH; auto. discriminate.
Qed.

End Primitives.

(** ** The parsers *)

Section Parsers.

(** A string of four bytes that starts with the ACK opcode is the opcode
    followed by two bytes. *)
Lemma ack_shape (data : string) :
  (String.length data = 4%nat /\ Py.slice_to 2 data = opcodeMap ACK) <->
  exists hi lo, data = ackBytes hi lo.
Proof.
  split.
  - intros [Hl Hp].
    destruct data as [|a [|b [|hi [|lo [|? ?]]]]]; try discriminate.
    simpl in Hp. inversion Hp; subst. exists hi, lo. reflexivity.
  - intros (hi & lo & ->). split; reflexivity.
Qed.

(** [Ack] returns exactly on the four-byte datagrams with the ACK opcode,
    with the big-endian number of the last two bytes. *)
Lemma Ack_Return (data : string) (a : Ack.t) :
  Ack.__init__ data = Return a <->
  exists hi lo, data = ackBytes hi lo
                /\ Ack.blockno a = 256 * Py.Z_of_byte hi + Py.Z_of_byte lo.
Proof.
  unfold Ack.__init__. split.
  - destruct (String.eqb (Py.slice_to 2 data) (opcodeMap ACK)) eqn:E;
      cbn [negb]; [|discriminate].
    apply String.eqb_eq in E.
    destruct (bytesToInt (Py.slice_from 2 data)) as [n|e] eqn:B; [|discriminate].
    intros H; inversion H; subst; clear H.
    apply bytesToInt_Return in B as (hi & lo & B & ->).
    exists hi, lo. split; [|reflexivity].
    rewrite <- (slice_to_from 2 data), E, B. reflexivity.
  - intros (hi & lo & -> & H). simpl. destruct a as [n]. simpl in H.
    now subst.
Qed.

(** Every other datagram makes [Ack] raise: [BadDataError] when the first
    two bytes are not the opcode, [struct.error] when they are and the
    length is not 4. *)
Lemma Ack_Raise (data : string) (e : exn) :
  Ack.__init__ data = Raise e <->
  (Py.slice_to 2 data <> opcodeMap ACK /\ e = BadDataError "Message is not an ack.")
  \/ (Py.slice_to 2 data = opcodeMap ACK /\ String.length data <> 4%nat
      /\ e = struct_error).
Proof.
  unfold Ack.__init__.
  destruct (String.eqb (Py.slice_to 2 data) (opcodeMap ACK)) eqn:E; cbn [negb].
  - apply String.eqb_eq in E.
    assert (L : String.length (Py.slice_from 2 data) = (String.length data - 2)%nat)
      by apply slice_from_length.
    assert (L2 : (2 <= String.length data)%nat).
    { pose proof (slice_to_length 2 data) as L2. rewrite E in L2.
      cbn [opcodeMap String.length] in L2. lia. }
    destruct (bytesToInt (Py.slice_from 2 data)) as [n|e'] eqn:B; split.
    + discriminate.
    + intros [[H _]|(_ & H & _)]; [congruence|].
      apply bytesToInt_Return in B as (hi & lo & B & _).
      rewrite B in L. simpl in L. lia.
    + intros H; inversion H; subst. right.
      apply bytesToInt_Raise in B as [B ->]. repeat split; auto. lia.
    + intros [[H _]|(_ & _ & ->)]; [congruence|].
      apply bytesToInt_Raise in B as [_ ->]. reflexivity.
  - apply String.eqb_neq in E. split.
    + intros H; inversion H; auto.
    + intros [[_ ->]|(H & _)]; [reflexivity | congruence].
Qed.

(** [Ack] returns exactly when the datagram has 4 bytes and the ACK
    opcode. *)
Lemma Ack_returns_iff (data : string) :
  (exists a, Ack.__init__ data = Return a) <->
  String.length data = 4%nat /\ Py.slice_to 2 data = opcodeMap ACK.
Proof.
  rewrite ack_shape. split.
  - intros (a & H). apply Ack_Return in H as (hi & lo & H & _). eauto.
  - intros (hi & lo & ->).
    exists {| Ack.blockno := 256 * Py.Z_of_byte hi + Py.Z_of_byte lo |}.
    apply Ack_Return. eauto.
Qed.

(** [ReadRequest] returns exactly on the RRQ opcode followed by three
    null-separated fields; the third may hold anything but a null. *)
Lemma ReadRequest_Return (data : string) (rr : ReadRequest.t) :
  ReadRequest.__init__ data = Return rr <->
  exists nothing,
    data = opcodeMap RRQ
             ++ join Py.NUL [ReadRequest.filename rr; ReadRequest.mode rr; nothing]
    /\ Py.contains Py.NUL (ReadRequest.filename rr) = false
    /\ Py.contains Py.NUL (ReadRequest.mode rr) = false
    /\ Py.contains Py.NUL nothing = false.
Proof.
  unfold ReadRequest.__init__. split.
  - destruct (Nat.ltb (String.length data) 2) eqn:L; cbn [orb]; [discriminate|].
    destruct (String.eqb (Py.slice_to 2 data) (opcodeMap RRQ)) eqn:E;
      cbn [negb]; [|discriminate].
    apply String.eqb_eq in E.
    pose proof (split_fields Py.NUL (Py.slice_from 2 data)) as F.
    pose proof (join_split Py.NUL (Py.slice_from 2 data)) as J.
    destruct (Py.split Py.NUL (Py.slice_from 2 data))
      as [|f [|m [|n [|? ?]]]]; try discriminate.
    intros H; inversion H; subst; clear H. simpl.
    inversion F as [|? ? Hf F1]; subst. inversion F1 as [|? ? Hm F2]; subst.
    inversion F2 as [|? ? Hn _]; subst.
    exists n. repeat split; auto.
    rewrite <- (slice_to_from 2 data) at 1. rewrite E, <- J. reflexivity.
  - intros (n & -> & Hf & Hm & Hn).
    change (Py.slice_from 2 (opcodeMap RRQ ++ ?x)) with x.
    cbn [opcodeMap String.append String.length Nat.ltb Nat.leb Py.slice_to
           String.eqb Ascii.eqb Bool.eqb orb negb].
    rewrite split_join; [destruct rr; reflexivity | discriminate |].
    repeat constructor; assumption.
Qed.

End Parsers.

(** ** The transfer session *)

Section Session.

Import Download.

(** [nextData] spelled out: the block number goes up first, then the
    provider is asked, then [done] is set on a short payload. *)
Lemma nextData_eq (self : Download.t) :
  nextData self =
  let self1 := set_blockno (blockno self + 1) self in
  match fileSystem self (filename self) (blockno self + 1) with
  | Raise e => (Raise e, self1)
  | Return PyNone => (Raise TypeError, self1)
  | Return (PyStr data) =>
      (Return (blockno self + 1, PyStr data),
       if Z.of_nat (String.length data) <? BLOCK_SIZE
       then set_done true self1 else self1)
  end.
Proof.
  unfold nextData, bind, modify, get, lift, ret. cbn.
  destruct (fileSystem self (filename self) (blockno self + 1)) as [[data|]|e];
    cbn; auto.
  destruct (Z.of_nat (String.length data) <? BLOCK_SIZE); reflexivity.
Qed.

Lemma makeNextDataMessage_eq (self : Download.t) :
  makeNextDataMessage self =
  match nextData self with
  | (Return (n, data), self') =>
      match intToBytes n with
      | Return b => (Return (opcodeMap DATA ++ b ++ str_of data), self')
      | Raise e => (Raise e, self')
      end
  | (Raise e, self') => (Raise e, self')
  end.
Proof.
  unfold makeNextDataMessage, bind, lift, ret.
  destruct (nextData self) as [[[n data]|e] self']; cbn; auto.
Qed.

(** A call of [makeNextDataMessage] leaves the session as the call of
    [nextData] inside it does. *)
Lemma makeNextDataMessage_state (self : Download.t) :
  snd (makeNextDataMessage self) = snd (nextData self).
Proof.
  rewrite makeNextDataMessage_eq.
  destruct (nextData self) as [[[n data]|e] self']; cbn; auto.
  destruct (intToBytes n); reflexivity.
Qed.

Lemma nextData_blockno (self : Download.t) :
  blockno (snd (nextData self)) = blockno self + 1.
Proof.
  rewrite nextData_eq. cbn.
  destruct (fileSystem self (filename self) (blockno self + 1)) as [[data|]|e];
    cbn; auto.
  destruct (Z.of_nat (String.length data) <? BLOCK_SIZE); reflexivity.
Qed.

(** The attributes set at construction stay as they are. *)
Lemma nextData_frame (self : Download.t) :
  let self' := snd (nextData self) in
  filename self' = filename self /\ mode self' = mode self
  /\ remoteHost self' = remoteHost self /\ remotePort self' = remotePort self
  /\ fileSystem self' = fileSystem self.
Proof.
  rewrite nextData_eq. cbn.
  destruct (fileSystem self (filename self) (blockno self + 1)) as [[data|]|e];
    cbn; auto 6.
  destruct (Z.of_nat (String.length data) <? BLOCK_SIZE); cbn; auto 6.
Qed.

(** [done] after a call: what it was, or set by a short payload. *)
Lemma nextData_done (self : Download.t) :
  done (snd (nextData self)) = done self || short_payload (fst (nextData self)).
Proof.
  rewrite nextData_eq. cbn.
  destruct (fileSystem self (filename self) (blockno self + 1)) as [[data|]|e];
    cbn; try now rewrite orb_false_r.
  destruct (Z.of_nat (String.length data) <? BLOCK_SIZE); cbn;
    [now rewrite orb_true_r | now rewrite orb_false_r].
Qed.

(** A returned message: the provider had the block, the number fits two
    bytes, and the message is opcode, number, payload. *)
Lemma makeNextDataMessage_Return (self self' : Download.t) (m : string) :
  makeNextDataMessage self = (Return m, self') <->
  exists data b,
    fileSystem self (filename self) (blockno self + 1) = Return (PyStr data)
    /\ intToBytes (blockno self + 1) = Return b
    /\ m = opcodeMap DATA ++ b ++ data
    /\ self' = (if Z.of_nat (String.length data) <? BLOCK_SIZE
                then set_done true (set_blockno (blockno self + 1) self)
                else set_blockno (blockno self + 1) self).
Proof.
  rewrite makeNextDataMessage_eq, nextData_eq. cbn zeta.
  destruct (fileSystem self (filename self) (blockno self + 1)) as [[data|]|e].
  - destruct (intToBytes (blockno self + 1)) as [b|e] eqn:B; split.
    + intros H; inversion H; subst. exists data, b. auto.
    + intros (data' & b' & Hd & Hb & -> & ->).
      inversion Hd; inversion Hb; subst. reflexivity.
    + discriminate.
    + intros (data' & b' & _ & Hb & _). discriminate.
  - split; [discriminate | intros (? & ? & H & _); discriminate].
  - split; [discriminate | intros (? & ? & H & _); discriminate].
Qed.

(** The checks of [ack], in their order. *)
Lemma ack_eq (message host : string) (port : Z) (self : Download.t) :
  ack message host port self =
  if negb (String.eqb host (remoteHost self)) || negb (port =? remotePort self)
  then (Raise (BadDataError "Message from wrong place!"), self)
  else match Ack.__init__ message with
       | Raise e => (Raise e, self)
       | Return a =>
           if negb (Ack.blockno a =? blockno self)
           then (Raise (BadDataError
                          ("This ack is out of sequence. ack for blockno "
                             ++ Py.str_of_int (Ack.blockno a)
                             ++ ", current blockno "
                             ++ Py.str_of_int (blockno self))), self)
           else makeNextDataMessage self
       end.
Proof.
  unfold ack, bind, get, raise, lift.
  destruct (negb (String.eqb host (remoteHost self))
            || negb (port =? remotePort self)); auto.
  destruct (Ack.__init__ message) as [a|e]; auto.
  destruct (negb (Ack.blockno a =? blockno self)); auto.
Qed.

Lemma wrong_source_test (host : string) (port : Z) (self : Download.t) :
  negb (String.eqb host (remoteHost self)) || negb (port =? remotePort self) = false
  <-> host = remoteHost self /\ port = remotePort self.
Proof.
  rewrite orb_false_iff, !negb_false_iff, String.eqb_eq, Z.eqb_eq. reflexivity.
Qed.

Lemma after_calls_S {A : Type} (m : method Download.t A) (n : nat)
  (self : Download.t) :
  after_calls m (S n) self = snd (m (after_calls m n self)).
Proof.
  revert self; induction n as [|n IH]; intros self; [reflexivity|].
  change (after_calls m (S (S n)) self) with (after_calls m (S n) (snd (m self))).
  rewrite IH. reflexivity.
Qed.

Lemma after_nextData_blockno (n : nat) (self : Download.t) :
  blockno (after_calls nextData n self) = blockno self + Z.of_nat n.
Proof.
  induction n as [|n IH]; [cbn; lia|].
  rewrite after_calls_S, nextData_blockno, IH. lia.
Qed.

(** [done] after [n] calls: set before, or by one of the calls. *)
Lemma after_nextData_done (n : nat) (self : Download.t) :
  done (after_calls nextData n self) = true <->
  done self = true \/ exists k, (k < n)%nat /\ short_at self k = true.
Proof.
  induction n as [|n IH].
  - cbn. split; [auto | intros [H|(k & H & _)]; [auto | lia]].
  - rewrite after_calls_S, nextData_done, orb_true_iff, IH. split.
    + intros [[H|(k & Hk & H)]|H]; auto.
      * right. exists k. split; [lia | auto].
      * right. exists n. split; [lia | auto].
    + intros [H|(k & Hk & H)]; auto.
      destruct (Nat.eq_dec k n) as [->|Hn]; [right; exact H|].
      left. right. exists k. split; [lia | auto].
Qed.


End Session.

(** ** Acks: acceptance, rejection and the order of the checks *)

(** C1, as amended: [Download.ack] returns the next data message exactly
    when the source address is the pinned one, the datagram parses as an
    ack, the parsed block number is the current one, and producing the next
    message succeeds (the provider has the next block and its number fits
    two bytes).  On every rejection by one of the three checks it raises
    and leaves the session, so [blockno] and [done], as it was. *)
Theorem ack_accepts_iff (self : Download.t) (message host : string) (port : Z) :
  (forall m self',
      Download.ack message host port self = (Return m, self') <->
      host = Download.remoteHost self /\ port = Download.remotePort self
      /\ (exists a, Ack.__init__ message = Return a
                    /\ Ack.blockno a = Download.blockno self)
      /\ exists data b,
          Download.fileSystem self (Download.filename self)
            (Download.blockno self + 1) = Return (PyStr data)
          /\ intToBytes (Download.blockno self + 1) = Return b
          /\ m = opcodeMap DATA ++ b ++ data
          /\ self' = (if Z.of_nat (String.length data) <? BLOCK_SIZE
                      then Download.set_done true
                             (Download.set_blockno (Download.blockno self + 1) self)
                      else Download.set_blockno (Download.blockno self + 1) self))
  /\ (host <> Download.remoteHost self \/ port <> Download.remotePort self
      \/ (forall a, Ack.__init__ message <> Return a)
      \/ (exists a, Ack.__init__ message = Return a
                    /\ Ack.blockno a <> Download.blockno self) ->
      exists e, Download.ack message host port self = (Raise e, self)).
Proof.
  rewrite ack_eq.
  destruct (negb (String.eqb host (Download.remoteHost self))
            || negb (port =? Download.remotePort self)) eqn:Src.
  - assert (Hsrc : ~ (host = Download.remoteHost self
                      /\ port = Download.remotePort self)).
    { intros H. apply wrong_source_test in H. congruence. }
    split.
    + intros m self'. split; [discriminate|]. intros (Hh & Hp & _). tauto.
    + intros _. eauto.
  - apply wrong_source_test in Src as [Hh Hp].
    destruct (Ack.__init__ message) as [a|e] eqn:P.
    + destruct (Ack.blockno a =? Download.blockno self) eqn:Seq; cbn [negb].
      * apply Z.eqb_eq in Seq. split.
        -- intros m self'. rewrite makeNextDataMessage_Return. split.
           ++ intros H. repeat split; eauto.
           ++ intros (_ & _ & _ & H). exact H.
        -- intros [H|[H|[H|(a' & H & Hn)]]]; try contradiction.
           ++ now elim (H a).
           ++ inversion H; subst. contradiction.
      * apply Z.eqb_neq in Seq. split.
        -- intros m self'. split; [discriminate|].
           intros (_ & _ & (a' & H & Ha) & _). inversion H; subst. contradiction.
        -- intros _. eauto.
    + split.
      * intros m self'. split; [discriminate|].
        intros (_ & _ & (a' & H & _) & _). discriminate.
      * intros _. eauto.
Qed.

(** C2: the checks of [Download.ack] come in the order source address, ack
    parsing, sequence number.  A datagram from another source is reported
    as coming from the wrong place whatever it holds, so also when it is
    malformed, and that error is not the one the ack parser raises; from
    the pinned source a malformed ack raises the parser's error, and only
    then is the block number compared.  The session moves on, or a message
    is returned, only when the three checks have passed. *)
Theorem ack_check_order (self : Download.t) (message host : string) (port : Z) :
  (host <> Download.remoteHost self \/ port <> Download.remotePort self ->
   Download.ack message host port self
   = (Raise (BadDataError "Message from wrong place!"), self)
   /\ forall e, Ack.__init__ message = Raise e ->
                e <> BadDataError "Message from wrong place!")
  /\ (host = Download.remoteHost self /\ port = Download.remotePort self ->
      (forall e, Ack.__init__ message = Raise e ->
                 Download.ack message host port self = (Raise e, self))
      /\ (forall a, Ack.__init__ message = Return a ->
                    Ack.blockno a <> Download.blockno self ->
                    Download.ack message host port self
                    = (Raise (BadDataError
                                ("This ack is out of sequence. ack for blockno "
                                   ++ Py.str_of_int (Ack.blockno a)
                                   ++ ", current blockno "
                                   ++ Py.str_of_int (Download.blockno self))), self))
      /\ (forall a, Ack.__init__ message = Return a ->
                    Ack.blockno a = Download.blockno self ->
                    Download.ack message host port self
                    = Download.makeNextDataMessage self))
  /\ (Download.blockno (snd (Download.ack message host port self))
      <> Download.blockno self
      \/ (exists m, fst (Download.ack message host port self) = Return m) ->
      host = Download.remoteHost self /\ port = Download.remotePort self
      /\ exists a, Ack.__init__ message = Return a
                   /\ Ack.blockno a = Download.blockno self).
Proof.
  rewrite ack_eq.
  destruct (negb (String.eqb host (Download.remoteHost self))
            || negb (port =? Download.remotePort self)) eqn:Src.
  - assert (Hsrc : ~ (host = Download.remoteHost self
                      /\ port = Download.remotePort self)).
    { intros H. apply wrong_source_test in H. congruence. }
    split; [|split].
    + intros _. split; [reflexivity|].
      intros e H. apply Ack_Raise in H as [[_ ->]|(_ & _ & ->)]; discriminate.
    + tauto.
    + intros [H|(m & H)]; [now elim H | discriminate].
  - apply wrong_source_test in Src as [Hh Hp].
    split; [tauto|]. split.
    + intros _. repeat split.
      * intros e ->. reflexivity.
      * intros a -> Hn. apply Z.eqb_neq in Hn. now rewrite Hn.
      * intros a -> Hn. apply Z.eqb_eq in Hn. now rewrite Hn.
    + destruct (Ack.__init__ message) as [a|e].
      * destruct (Ack.blockno a =? Download.blockno self) eqn:Seq; cbn [negb].
        -- apply Z.eqb_eq in Seq. intros _. eauto.
        -- intros [H|(m & H)]; [now elim H | discriminate].
      * intros [H|(m & H)]; [now elim H | discriminate].
Qed.

(** A session for a file the served directory does not hold: the ack for
    its current block comes from the pinned address, parses and is in
    sequence, and yet no message comes back; the call raises with the block
    number already advanced. *)
Lemma ack_passes_checks_without_message :
  "127.0.0.1" = Download.remoteHost missingFileDownload
  /\ 1111 = Download.remotePort missingFileDownload
  /\ Ack.__init__ (ackBytes "000" "000")
     = Return {| Ack.blockno := Download.blockno missingFileDownload |}
  /\ Download.ack (ackBytes "000" "000") "127.0.0.1" 1111 missingFileDownload
     = (Raise (BadDataError "File not found."),
        Download.set_blockno 1 missingFileDownload)
  /\ ~ (exists m self',
           Download.ack (ackBytes "000" "000") "127.0.0.1" 1111
             missingFileDownload
           = (Return m, self')).
Proof.
  repeat split.
  intros (m & self' & H). discriminate.
Qed.

Lemma ack_accepts_iff_witness :
  exists e,
    Download.ack (ackBytes "000" "002") "127.0.0.1" 1111 testDownload
    = (Raise e, testDownload).
Proof.
  apply (proj2 (ack_accepts_iff testDownload (ackBytes "000" "002")
                  "127.0.0.1" 1111)).
  right. right. right. exists {| Ack.blockno := 2 |}.
  split; [reflexivity | discriminate].
Defined.

Lemma ack_check_order_witness :
  Download.ack "junk" "127.0.0.1" 1112 testDownload
  = (Raise (BadDataError "Message from wrong place!"), testDownload)
  /\ forall e, Ack.__init__ "junk" = Raise e ->
               e <> BadDataError "Message from wrong place!".
Proof.
  apply (proj1 (ack_check_order testDownload "junk" "127.0.0.1" 1112)).
  right. discriminate.
Defined.

(** ** The download of tests.py *)

(** C3: the read request for "woo.txt" from (127.0.0.1, 1111) over the
    520 bytes of "0123456789" repeated 52 times.  The first message is the
    DATA opcode, block number 1 and the first 512 bytes; the ack of block 1
    from that address returns the DATA opcode, block number 2 and the last
    8 bytes, and [done] is then set.  Block [k] of the provider holds the
    bytes at offsets [(k-1)*512] to [k*512-1] of the resource. *)
Theorem download_happy_path :
  ReadRequest.__init__ goodRequest = Return testRequest
  /\ String.length fileData = 520%nat
  /\ (exists d1 d2,
         Download.makeNextDataMessage testDownload
         = (Return (opcodeMap DATA ++ String "000" (String "001" "")
                      ++ Py.slice_to 512 fileData), d1)
         /\ Download.done d1 = false
         /\ Download.ack (ackBytes "000" "001") "127.0.0.1" 1111 d1
            = (Return (opcodeMap DATA ++ String "000" (String "002" "")
                         ++ Py.slice_from 512 fileData), d2)
         /\ String.length (Py.slice_from 512 fileData) = 8%nat
         /\ Download.done d2 = true)
  /\ forall (k : positive) (i : nat),
      exists block,
        testProvider "woo.txt" (Z.pos k) = Return (PyStr block)
        /\ String.length block
           = Nat.min 512 (520 - (Pos.to_nat k - 1) * 512)
        /\ String.get i block
           = if (i <? 512)%nat
             then String.get ((Pos.to_nat k - 1) * 512 + i) fileData
             else None.
Proof.
  split; [reflexivity|]. split; [reflexivity|]. split.
  - eexists. eexists.
    split; [vm_compute; reflexivity|].
    split; [reflexivity|].
    split; [vm_compute; reflexivity|].
    split; reflexivity.
  - intros k i.
    exists (Py.slice (Z.to_nat (Z.max 0 ((Z.pos k - 1) * 512))) 512 fileData).
    split; [reflexivity|].
    replace (Z.to_nat (Z.max 0 ((Z.pos k - 1) * 512)))
      with ((Pos.to_nat k - 1) * 512)%nat by lia.
    split.
    + rewrite slice_length. reflexivity.
    + apply get_slice.
Qed.

(** ** Completion *)

(** What [short_at] says: the call returned the payload of its block, and
    that payload is shorter than a block. *)
Lemma short_at_spec (self : Download.t) (k : nat) :
  short_at self k = true <->
  exists data,
    fst (Download.nextData (after_calls Download.nextData k self))
    = Return (Download.blockno self + Z.of_nat k + 1, PyStr data)
    /\ Z.of_nat (String.length data) < BLOCK_SIZE.
Proof.
  unfold short_at. rewrite nextData_eq, after_nextData_blockno. cbv zeta.
  set (s := after_calls Download.nextData k self).
  destruct (Download.fileSystem s (Download.filename s)
              (Download.blockno self + Z.of_nat k + 1)) as [[data|]|e]; cbn.
  - rewrite Z.ltb_lt. split.
    + intros H. exists data. auto.
    + intros (data' & H & Hl). inversion H; subst. exact Hl.
  - split; [discriminate | intros (? & H & _); discriminate].
  - split; [discriminate | intros (? & H & _); discriminate].
Qed.

(** A resource of exactly two blocks: the third call returns the empty
    payload, and it is that call which sets [done]. *)
Lemma empty_final_block :
  String.length twoBlocks = 1024%nat
  /\ fst (Download.nextData (after_calls Download.nextData 2 twoBlocksDownload))
     = Return (3, PyStr "")
  /\ Download.done (after_calls Download.nextData 2 twoBlocksDownload) = false
  /\ Download.done (after_calls Download.nextData 3 twoBlocksDownload) = true.
Proof. repeat split. Qed.

(** ** Block numbers *)

(** A returned message starts with the DATA opcode and then carries, in
    two big-endian bytes, the block number the session has at that moment,
    which is one more than before the call. *)
Lemma message_block_number (self self' : Download.t) (m : string) :
  Download.makeNextDataMessage self = (Return m, self') ->
  Download.blockno self' = Download.blockno self + 1
  /\ Py.slice_to 2 m = opcodeMap DATA
  /\ bytesToInt (Py.slice 2 2 m) = Return (Download.blockno self').
Proof.
  intros H.
  assert (B : Download.blockno self' = Download.blockno self + 1).
  { rewrite <- nextData_blockno, <- makeNextDataMessage_state, H. reflexivity. }
  apply makeNextDataMessage_Return in H as (data & b & _ & Hb & -> & _).
  pose proof (bytesToInt_intToBytes _ _ Hb) as R.
  apply intToBytes_Return in Hb as [_ ->].
  repeat split; auto.
  rewrite B, <- R. reflexivity.
Qed.

Lemma produce_S (n : nat) (self : Download.t) :
  produce (S n) self =
  match Download.makeNextDataMessage self with
  | (Return m, self1) =>
      match produce n self1 with
      | (Return ms, self2) => (Return (m :: ms), self2)
      | (Raise e, self2) => (Raise e, self2)
      end
  | (Raise e, self1) => (Raise e, self1)
  end.
Proof.
  cbn [produce]. unfold bind, ret.
  destruct (Download.makeNextDataMessage self) as [[m|e] self1]; auto.
Qed.

(** [n] calls that all returned: the session went through the states of
    [after_calls], and message [k] is what call [k] returned. *)
Lemma produce_Return (n : nat) (self self' : Download.t) (msgs : list string) :
  produce n self = (Return msgs, self') ->
  self' = after_calls Download.makeNextDataMessage n self
  /\ List.length msgs = n
  /\ forall k, (k < n)%nat ->
       exists m,
         Download.makeNextDataMessage
           (after_calls Download.makeNextDataMessage k self)
         = (Return m, after_calls Download.makeNextDataMessage (S k) self)
         /\ nth_error msgs k = Some m.
Proof.
  revert self self' msgs. induction n as [|n IH]; intros self self' msgs.
  - cbn. unfold ret. intros H; inversion H; subst.
    repeat split; auto. intros k Hk. lia.
  - rewrite produce_S.
    destruct (Download.makeNextDataMessage self) as [[m|e] self1] eqn:E1;
      [|discriminate].
    destruct (produce n self1) as [[ms|e] self2] eqn:E2; [|discriminate].
    intros H; inversion H; subst; clear H.
    apply IH in E2 as (-> & Hl & Hk).
    assert (S1 : self1 = snd (Download.makeNextDataMessage self))
      by now rewrite E1.
    repeat split.
    + cbn [after_calls]. now rewrite <- S1.
    + cbn. now rewrite Hl.
    + intros [|k] Hlt.
      * exists m. cbn [after_calls nth_error]. rewrite <- S1. auto.
      * destruct (Hk k) as (m' & Hm & Hn); [lia|].
        exists m'. cbn [after_calls nth_error] in *. rewrite <- S1. auto.
Qed.

Lemma after_makeNextDataMessage_blockno (n : nat) (self : Download.t) :
  Download.blockno (after_calls Download.makeNextDataMessage n self)
  = Download.blockno self + Z.of_nat n.
Proof.
  induction n as [|n IH]; [cbn; lia|].
  rewrite after_calls_S, makeNextDataMessage_state, nextData_blockno, IH. lia.
Qed.

(** ** What the parsers accept and how they fail *)

(** How [ReadRequest] fails: [BadDataError] on a datagram shorter than two
    bytes or without the RRQ opcode, [ValueError] from the unpacking when
    the rest does not split into three fields. *)
Lemma ReadRequest_Raise (data : string) (e : exn) :
  ReadRequest.__init__ data = Raise e <->
  ((String.length data < 2)%nat \/ Py.slice_to 2 data <> opcodeMap RRQ)
  /\ e = BadDataError ("Got a message that is not a read request: " ++ data)
  \/ ((2 <= String.length data)%nat /\ Py.slice_to 2 data = opcodeMap RRQ
      /\ List.length (Py.split Py.NUL (Py.slice_from 2 data)) <> 3%nat
      /\ e = ValueError).
Proof.
  unfold ReadRequest.__init__.
  destruct (Nat.ltb_spec (String.length data) 2) as [L|L]; cbn [orb].
  - split.
    + intros H; inversion H; auto.
    + intros [[_ ->]|(H & _)]; [reflexivity | lia].
  - destruct (String.eqb (Py.slice_to 2 data) (opcodeMap RRQ)) eqn:E; cbn [negb].
    + apply String.eqb_eq in E.
      destruct (Py.split Py.NUL (Py.slice_from 2 data))
        as [|f [|m [|n [|? ?]]]]; cbn [List.length]; split;
        try discriminate;
        try (intros H; inversion H; right; repeat split; auto; lia);
        try (intros [[[H|H] _]|(_ & _ & H & ->)];
             [lia | congruence | try reflexivity; try lia]).
    + apply String.eqb_neq in E. split.
      * intros H; inversion H; auto.
      * intros [[_ ->]|(_ & H & _)]; [reflexivity | congruence].
Qed.

(** C6, on the code: a read request followed by a non-empty third field
    is accepted, with the first two fields as filename and mode; and a
    request with too few or too many fields fails with the [ValueError] of
    the unpacking, not with [BadDataError]. *)
Theorem ReadRequest_trailing_field_accepted :
  ReadRequest.__init__ (goodRequest ++ "junk") = Return testRequest
  /\ ReadRequest.__init__ (opcodeMap RRQ ++ "woo.txt") = Raise ValueError
  /\ ReadRequest.__init__ (goodRequest ++ "octet" ++ NUL1) = Raise ValueError.
Proof. repeat split. Qed.

(** C7, on the code: a datagram with the ACK opcode and a length other
    than 4 fails with [struct.error], raised by the decoding of the block
    number, and not with the [BadDataError] of a message that is not an
    ack. *)
Theorem Ack_wrong_length_struct_error :
  Ack.__init__ (opcodeMap ACK ++ String "000" "") = Raise struct_error
  /\ Ack.__init__ (opcodeMap ACK) = Raise struct_error
  /\ Ack.__init__ (ackBytes "000" "001" ++ String "000" "") = Raise struct_error
  /\ struct_error <> BadDataError "Message is not an ack.".
Proof. repeat split. discriminate. Qed.

(** C9, as amended: the filename of a successfully parsed read request
    holds no null byte, and neither does its mode.  It may be empty. *)
Theorem ReadRequest_filename_no_null (data : string) (rr : ReadRequest.t) :
  ReadRequest.__init__ data = Return rr ->
  Py.contains Py.NUL (ReadRequest.filename rr) = false
  /\ Py.contains Py.NUL (ReadRequest.mode rr) = false.
Proof.
  intros H. apply ReadRequest_Return in H as (n & _ & Hf & Hm & _). auto.
Qed.

Lemma ReadRequest_filename_no_null_witness :
  ReadRequest.__init__ goodRequest = Return testRequest
  /\ Py.contains Py.NUL (ReadRequest.filename testRequest) = false
  /\ Py.contains Py.NUL (ReadRequest.mode testRequest) = false.
Proof.
  split; [reflexivity|].
  apply (ReadRequest_filename_no_null goodRequest testRequest). reflexivity.
Defined.

(** A read request whose filename field is empty is parsed all the same. *)
Lemma ReadRequest_empty_filename :
  exists rr,
    ReadRequest.__init__ (opcodeMap RRQ ++ NUL1 ++ "netascii" ++ NUL1) = Return rr
    /\ ReadRequest.filename rr = ""
    /\ String.length (ReadRequest.filename rr) = 0%nat.
Proof. eexists. repeat split. Qed.

(** ** The supervisor once the session is done *)

(** With the session done, a datagram makes the handler stop listening and
    then go on to the ack all the same: what [Download.ack] returns is
    written to the sender, what it raises propagates. *)
Lemma datagramReceived_when_done (h : TftpDownloadHandler.t) (d : Download.t)
  (data host : string) (port : Z) :
  TftpDownloadHandler.transport h = true ->
  TftpDownloadHandler.download h = Some d ->
  Download.done d = true ->
  TftpDownloadHandler.datagramReceived data host port h =
  let h1 := TftpDownloadHandler.emit TftpDownloadHandler.StopListening
              (TftpDownloadHandler.emit
                 (TftpDownloadHandler.TimeoutReset TftpDownloadHandler.timeoutPeriod)
                 h) in
  match Download.ack data host port d with
  | (Return m, d') =>
      (Return tt,
       TftpDownloadHandler.emit (TftpDownloadHandler.TransportWrite m host port)
         (TftpDownloadHandler.set_download d' h1))
  | (Raise e, d') => (Raise e, TftpDownloadHandler.set_download d' h1)
  end.
Proof.
  intros Ht Hd Hdone. destruct h as [rr rh rp fs tr dl ef]. cbn in Ht, Hd. subst.
  unfold TftpDownloadHandler.datagramReceived.
  generalize (Download.ack data host port). intros acked.
  unfold TftpDownloadHandler.on_download, TftpDownloadHandler.transport_method,
    bind, modify, get, ret, raise.
  cbn. rewrite Hdone. cbn.
  destruct (acked d) as [[m|e] d']; reflexivity.
Qed.

(** C8, on the code: the test session is done after the ack of block 1 has
    brought block 2.  The next datagram, the ack of block 2, makes the
    handler stop listening and then still call [ack], which produces a
    third, empty, data message and writes it to the client. *)
Theorem datagram_after_done_still_acked :
  let h1 := snd (TftpDownloadHandler.startProtocol noWorld testHandler) in
  let h2 := snd (TftpDownloadHandler.datagramReceived (ackBytes "000" "001")
                   "127.0.0.1" 1111 h1) in
  let r3 := TftpDownloadHandler.datagramReceived (ackBytes "000" "002")
              "127.0.0.1" 1111 h2 in
  option_map Download.done (TftpDownloadHandler.download h2) = Some true
  /\ option_map Download.blockno (TftpDownloadHandler.download h2) = Some 2
  /\ fst r3 = Return tt
  /\ TftpDownloadHandler.effects (snd r3)
     = (TftpDownloadHandler.effects h2
          ++ [TftpDownloadHandler.TimeoutReset 5;
              TftpDownloadHandler.StopListening;
              TftpDownloadHandler.TransportWrite
                (opcodeMap DATA ++ String "000" (String "003" ""))
                "127.0.0.1" 1111])%list
  /\ option_map Download.blockno (TftpDownloadHandler.download (snd r3)) = Some 3.
Proof. vm_compute. repeat split. Qed.

(** ** The file-system provider *)

Lemma getFileData_loop_found (w : OS.world) (self : FileSystem.t)
  (requestedFilename : string) (blockno : Z) (names : list string) (data : string) :
  fst (FileSystem.getFileData_loop w self requestedFilename blockno names)
  = Return data ->
  In requestedFilename names.
Proof.
  induction names as [|filename names IH]; cbn; [discriminate|].
  destruct (String.eqb_spec requestedFilename filename) as [->|Hn]; auto.
Qed.

Lemma getFileData_loop_not_found (w : OS.world) (self : FileSystem.t)
  (requestedFilename : string) (blockno : Z) (names : list string) :
  ~ In requestedFilename names ->
  FileSystem.getFileData_loop w self requestedFilename blockno names
  = (Raise (BadDataError "File not found."), []).
Proof.
  induction names as [|filename names IH]; cbn; auto.
  intros H. destruct (String.eqb_spec requestedFilename filename) as [->|Hn].
  - elim H. auto.
  - apply IH. tauto.
Qed.

(** C10: with [names] the listing of its directory, [getFileData] returns
    block data only for a requested name that is one of [names]; for any
    other name it raises the file-not-found [BadDataError] having listed
    the directory and opened no file.  Listed names hold no path
    separator, so a requested name that holds one is such a name. *)
Theorem getFileData_only_listed_names (w : OS.world) (self : FileSystem.t)
  (requestedFilename : string) (blockno : Z) (names : list string) :
  OS.listdir w (FileSystem.directoryPath self) = Return names ->
  (forall data,
      fst (FileSystem.getFileData w self requestedFilename blockno) = Return data ->
      In requestedFilename names)
  /\ (forall data,
         FileSystem.as_provider w self requestedFilename blockno = Return data ->
         In requestedFilename names)
  /\ (~ In requestedFilename names ->
      FileSystem.getFileData w self requestedFilename blockno
      = (Raise (BadDataError "File not found."),
         [OS.Listdir (FileSystem.directoryPath self)]))
  /\ (Forall (fun name => Py.contains "/" name = false) names ->
      Py.contains "/" requestedFilename = true ->
      FileSystem.getFileData w self requestedFilename blockno
      = (Raise (BadDataError "File not found."),
         [OS.Listdir (FileSystem.directoryPath self)])).
Proof.
  intros L.
  assert (F : forall data,
             fst (FileSystem.getFileData w self requestedFilename blockno)
             = Return data -> In requestedFilename names).
  { unfold FileSystem.getFileData. rewrite L. intros data.
    destruct (FileSystem.getFileData_loop w self requestedFilename blockno names)
      as [r evs] eqn:E. cbn. intros ->.
    apply (getFileData_loop_found w self requestedFilename blockno names data).
    now rewrite E. }
  assert (N : ~ In requestedFilename names ->
              FileSystem.getFileData w self requestedFilename blockno
              = (Raise (BadDataError "File not found."),
                 [OS.Listdir (FileSystem.directoryPath self)])).
  { intros H. unfold FileSystem.getFileData.
    rewrite L, getFileData_loop_not_found by assumption. reflexivity. }
  repeat split; auto.
  - intros data. unfold FileSystem.as_provider.
    destruct (fst (FileSystem.getFileData w self requestedFilename blockno))
      as [s|e] eqn:E; [|discriminate].
    intros _. eauto.
  - intros Hnames Hreq. apply N. intros Hin.
    rewrite Forall_forall in Hnames. rewrite (Hnames _ Hin) in Hreq. discriminate.
Qed.

Lemma getFileData_only_listed_names_witness :
  OS.listdir servedWorld (FileSystem.directoryPath (FileSystem.__init__ None))
  = Return ["woo.txt"; "sub"]
  /\ FileSystem.getFileData servedWorld (FileSystem.__init__ None)
       "../../etc/passwd" 1
     = (Raise (BadDataError "File not found."), [OS.Listdir "/tmp/test_tftp"]).
Proof.
  split; [reflexivity|].
  apply (proj2 (proj2 (proj2 (getFileData_only_listed_names servedWorld
                                (FileSystem.__init__ None) "../../etc/passwd" 1
                                ["woo.txt"; "sub"] eq_refl)))).
  - repeat constructor.
  - reflexivity.
Defined.

(** * Further properties of the code *)

(** ** The wire codec *)

Lemma pack_byte_pair (hi lo : ascii) :
  intToBytes (256 * Py.Z_of_byte hi + Py.Z_of_byte lo)
  = Return (String hi (String lo "")).
Proof.
  pose proof (Z_of_byte_range hi) as Hh. pose proof (Z_of_byte_range lo) as Hl.
  apply intToBytes_Return. split; [lia|].
  replace ((256 * Py.Z_of_byte hi + Py.Z_of_byte lo) / 256)
    with (Py.Z_of_byte hi)
    by (apply (Z.div_unique _ _ _ (Py.Z_of_byte lo)); lia).
  replace ((256 * Py.Z_of_byte hi + Py.Z_of_byte lo) mod 256)
    with (Py.Z_of_byte lo)
    by (apply (Z.mod_unique _ _ (Py.Z_of_byte hi)); lia).
  now rewrite !byte_of_Z_of_byte.
Qed.

(** X1: every number of an unsigned short is encoded by [intToBytes] in
    exactly two bytes, which [bytesToInt] decodes to the same number; so
    two different block numbers never share an encoding. *)
Theorem intToBytes_round_trip (i j : Z) :
  0 <= i <= 65535 ->
  exists b,
    intToBytes i = Return b
    /\ String.length b = 2%nat
    /\ bytesToInt b = Return i
    /\ (intToBytes j = Return b -> j = i).
Proof.
  intros Hi.
  destruct (intToBytes i) as [b|e] eqn:E.
  - exists b. pose proof (bytesToInt_intToBytes _ _ E) as R.
    repeat split; auto.
    + apply intToBytes_Return in E as [_ ->]. reflexivity.
    + intros Hj. apply bytesToInt_intToBytes in Hj. congruence.
  - apply intToBytes_Raise in E as [E _]. lia.
Qed.

Lemma intToBytes_round_trip_witness :
  exists b,
    intToBytes 65535 = Return b
    /\ String.length b = 2%nat
    /\ bytesToInt b = Return 65535
    /\ (intToBytes 255 = Return b -> 255 = 65535).
Proof. apply (intToBytes_round_trip 65535 255). lia. Defined.

(** X2: every string of exactly two bytes decodes with [bytesToInt] to a
    number between 0 and 65535, which [intToBytes] encodes back to the same
    two bytes. *)
Theorem bytesToInt_round_trip (byt : string) :
  String.length byt = 2%nat ->
  exists n,
    bytesToInt byt = Return n
    /\ 0 <= n <= 65535
    /\ intToBytes n = Return byt.
Proof.
  intros L. destruct byt as [|hi [|lo [|? ?]]]; try discriminate.
  exists (256 * Py.Z_of_byte hi + Py.Z_of_byte lo).
  split; [reflexivity|]. split.
  - pose proof (Z_of_byte_range hi). pose proof (Z_of_byte_range lo). lia.
  - apply pack_byte_pair.
Qed.

Lemma bytesToInt_round_trip_witness :
  exists n,
    bytesToInt (String "255" (String "254" "")) = Return n
    /\ 0 <= n <= 65535
    /\ intToBytes n = Return (String "255" (String "254" "")).
Proof. apply (bytesToInt_round_trip (String "255" (String "254" ""))). reflexivity. Defined.

(** ** The parsers *)

(** X3: the datagrams [Ack] accepts are exactly the ACK opcode followed by
    the [intToBytes] encoding of a block number, and [Ack] gives that
    number back. *)
Theorem Ack_inverts_intToBytes (data : string) (n : Z) :
  Ack.__init__ data = Return {| Ack.blockno := n |} <->
  exists b, intToBytes n = Return b /\ data = opcodeMap ACK ++ b.
Proof.
  rewrite Ack_Return. cbn [Ack.blockno]. split.
  - intros (hi & lo & -> & ->). exists (String hi (String lo "")).
    split; [apply pack_byte_pair | reflexivity].
  - intros (b & Hb & ->).
    pose proof (bytesToInt_intToBytes _ _ Hb) as R.
    apply bytesToInt_Return in R as (hi & lo & -> & ->).
    exists hi, lo. split; reflexivity.
Qed.

Lemma split_length (sep : ascii) (s : string) :
  List.length (Py.split sep s) = S (count sep s).
Proof.
  induction s as [|c s IH]; cbn; auto.
  destruct (Ascii.eqb c sep); cbn; [now rewrite IH|].
  pose proof (split_not_nil sep s).
  destruct (Py.split sep s); [congruence | exact IH].
Qed.

(** X4: [ReadRequest] returns exactly on the datagrams of at least two
    bytes that start with the RRQ opcode and hold exactly two null bytes
    after it; a shorter datagram or another opcode raises [BadDataError]
    with the datagram in its message, and any other number of null bytes
    raises the [ValueError] of the unpacking. *)
Theorem ReadRequest_two_nulls (data : string) :
  ((exists rr, ReadRequest.__init__ data = Return rr) <->
   (2 <= String.length data)%nat
   /\ Py.slice_to 2 data = opcodeMap RRQ
   /\ count Py.NUL (Py.slice_from 2 data) = 2%nat)
  /\ (ReadRequest.__init__ data
      = Raise (BadDataError ("Got a message that is not a read request: " ++ data))
      <-> (String.length data < 2)%nat \/ Py.slice_to 2 data <> opcodeMap RRQ)
  /\ (ReadRequest.__init__ data = Raise ValueError <->
      (2 <= String.length data)%nat
      /\ Py.slice_to 2 data = opcodeMap RRQ
      /\ count Py.NUL (Py.slice_from 2 data) <> 2%nat).
Proof.
  pose proof (split_length Py.NUL (Py.slice_from 2 data)) as SL.
  split; [|split].
  - destruct (ReadRequest.__init__ data) as [rr|e] eqn:E.
    + split; [intros _ | eauto].
      assert (Hv : ReadRequest.__init__ data <> Raise ValueError) by congruence.
      assert (Hb : forall m, ReadRequest.__init__ data <> Raise (BadDataError m))
        by congruence.
      destruct (Nat.ltb_spec (String.length data) 2) as [L|L].
      { elim (Hb ("Got a message that is not a read request: " ++ data)).
        apply ReadRequest_Raise. left. auto. }
      destruct (string_dec (Py.slice_to 2 data) (opcodeMap RRQ)) as [O|O].
      2:{ elim (Hb ("Got a message that is not a read request: " ++ data)).
          apply ReadRequest_Raise. left. auto. }
      repeat split; auto.
      destruct (Nat.eq_dec (count Py.NUL (Py.slice_from 2 data)) 2) as [C|C]; auto.
      elim Hv. apply ReadRequest_Raise. right. repeat split; auto. lia.
    + split; [intros (rr & H); discriminate|].
      intros (L & O & C).
      apply ReadRequest_Raise in E as [[[H|H] _]|(_ & _ & H & _)];
        [lia | congruence | lia].
  - rewrite ReadRequest_Raise. split.
    + intros [[H _]|(_ & _ & _ & H)]; [exact H | discriminate].
    + intros H. left. auto.
  - rewrite ReadRequest_Raise. split.
    + intros [[_ H]|(L & O & C & _)]; [discriminate|].
      repeat split; auto. lia.
    + intros (L & O & C). right. repeat split; auto. lia.
Qed.

(** X5: a filename and a mode without null bytes, sent as the RRQ opcode,
    the filename, a null, the mode and a null, are parsed back by
    [ReadRequest] as they were. *)
Theorem ReadRequest_round_trip (filename mode : string) :
  Py.contains Py.NUL filename = false ->
  Py.contains Py.NUL mode = false ->
  ReadRequest.__init__ (opcodeMap RRQ ++ filename ++ NUL1 ++ mode ++ NUL1)
  = Return {| ReadRequest.filename := filename; ReadRequest.mode := mode |}.
Proof.
  intros Hf Hm. apply ReadRequest_Return. exists "". cbn [ReadRequest.filename
    ReadRequest.mode]. repeat split; auto.
Qed.

Lemma ReadRequest_round_trip_witness :
  ReadRequest.__init__ (opcodeMap RRQ ++ "boot/pxe.cfg" ++ NUL1 ++ "octet" ++ NUL1)
  = Return {| ReadRequest.filename := "boot/pxe.cfg"; ReadRequest.mode := "octet" |}.
Proof.
  apply (ReadRequest_round_trip "boot/pxe.cfg" "octet"); reflexivity.
Defined.

(** ** Blocks of a resource *)

Lemma slice_from_add (a n : nat) (s : string) :
  Py.slice_from (a + n) s = Py.slice_from n (Py.slice_from a s).
Proof.
  revert s; induction a as [|a IH]; intros s; [reflexivity|].
  destruct s as [|c s]; cbn [Nat.add Py.slice_from]; [now destruct n | apply IH].
Qed.

Lemma slice_to_app (n m : nat) (s : string) :
  Py.slice_to n s ++ Py.slice_to m (Py.slice_from n s) = Py.slice_to (n + m) s.
Proof.
  revert s; induction n as [|n IH]; intros s; [reflexivity|].
  destruct s as [|c s]; cbn [Nat.add Py.slice_to Py.slice_from String.append].
  - now destruct m.
  - now rewrite IH.
Qed.

(** Two adjoining slices make one. *)
Lemma slice_app (a n m : nat) (s : string) :
  Py.slice a n s ++ Py.slice (a + n) m s = Py.slice a (n + m) s.
Proof.
  unfold Py.slice. rewrite slice_from_add. apply slice_to_app.
Qed.

Lemma slice_to_all (n : nat) (s : string) :
  (String.length s <= n)%nat -> Py.slice_to n s = s.
Proof.
  revert s; induction n as [|n IH]; intros [|c s]; cbn; auto; try lia.
  intros H. rewrite IH; auto. lia.
Qed.

Lemma getFileData_loop_listed (w : OS.world) (self : FileSystem.t)
  (requestedFilename : string) (blockno : Z) (names : list string) :
  In requestedFilename names ->
  FileSystem.getFileData_loop w self requestedFilename blockno names
  = FileSystem.readBlock w
      (Py.path_join (FileSystem.directoryPath self) requestedFilename) blockno.
Proof.
  induction names as [|filename names IH]; cbn; [tauto|].
  intros H. destruct (String.eqb_spec requestedFilename filename) as [->|Hn]; auto.
  apply IH. destruct H; [congruence | assumption].
Qed.

Lemma readBlock_opened (w : OS.world) (path : string) (blockno : Z) :
  opened (snd (FileSystem.readBlock w path blockno)) = [path].
Proof.
  unfold FileSystem.readBlock.
  destruct (OS.assoc path (OS.files w)); [|reflexivity].
  destruct ((blockno - 1) * BLOCK_SIZE <? 0); reflexivity.
Qed.

(** X6: for a listed name whose file can be read, [FileSystem.getFileData]
    serves the file in blocks of 512 bytes: block [k >= 1] is the bytes at
    offsets [(k-1)*512] to [k*512-1] that the file has, never more than 512
    and none past its end; the call lists the directory, opens that one
    file, seeks and reads once. *)
Theorem FileSystem_serves_listed_file (w : OS.world) (self : FileSystem.t)
  (names : list string) (name content : string) :
  OS.listdir w (FileSystem.directoryPath self) = Return names ->
  In name names ->
  OS.assoc (Py.path_join (FileSystem.directoryPath self) name) (OS.files w)
  = Some content ->
  serves (FileSystem.as_provider w self) name content
  /\ forall k, 1 <= k ->
       exists data,
         FileSystem.getFileData w self name k
         = (Return data,
            [OS.Listdir (FileSystem.directoryPath self);
             OS.Open (Py.path_join (FileSystem.directoryPath self) name);
             OS.Seek ((k - 1) * 512); OS.Read 512])
         /\ String.length data
            = Nat.min 512 (String.length content - Z.to_nat (k - 1) * 512)
         /\ forall i, String.get i data
                      = if (i <? 512)%nat
                        then String.get (Z.to_nat (k - 1) * 512 + i) content
                        else None.
Proof.
  intros L Hin Hf.
  assert (G : forall k, 1 <= k ->
            FileSystem.getFileData w self name k
            = (Return (Py.slice (Z.to_nat ((k - 1) * BLOCK_SIZE))
                         (Z.to_nat BLOCK_SIZE) content),
               [OS.Listdir (FileSystem.directoryPath self);
                OS.Open (Py.path_join (FileSystem.directoryPath self) name);
                OS.Seek ((k - 1) * 512); OS.Read 512])).
  { intros k Hk. unfold FileSystem.getFileData.
    rewrite L, getFileData_loop_listed by assumption.
    unfold FileSystem.readBlock. rewrite Hf.
    destruct (Z.ltb_spec ((k - 1) * BLOCK_SIZE) 0) as [H|H];
      [unfold BLOCK_SIZE in H; lia | reflexivity]. }
  split.
  - intros k Hk. unfold FileSystem.as_provider. now rewrite (G k Hk).
  - intros k Hk. eexists. split; [apply (G k Hk)|].
    replace (Z.to_nat ((k - 1) * BLOCK_SIZE)) with (Z.to_nat (k - 1) * 512)%nat
      by (unfold BLOCK_SIZE; lia).
    change (Z.to_nat BLOCK_SIZE) with 512%nat.
    split; [apply slice_length | intros i; apply get_slice].
Qed.

Lemma FileSystem_serves_listed_file_witness :
  serves (FileSystem.as_provider servedWorld (FileSystem.__init__ None))
    "woo.txt" fileData.
Proof.
  apply (proj1 (FileSystem_serves_listed_file servedWorld (FileSystem.__init__ None)
                  ["woo.txt"; "sub"] "woo.txt" fileData eq_refl
                  (or_introl eq_refl) eq_refl)).
Defined.

(** X7: whatever name is requested, [FileSystem.getFileData] opens at most
    one file, and only the requested name joined to its directory, after
    finding that name in the listing; for a name without a path separator
    that path is the directory followed by the name, with one separator
    between them unless the directory is empty or ends with one. *)
Theorem FileSystem_opens_only_listed (w : OS.world) (self : FileSystem.t)
  (requestedFilename : string) (blockno : Z) (path : string) :
  In path (opened (snd (FileSystem.getFileData w self requestedFilename blockno))) ->
  (exists names,
      OS.listdir w (FileSystem.directoryPath self) = Return names
      /\ In requestedFilename names)
  /\ opened (snd (FileSystem.getFileData w self requestedFilename blockno)) = [path]
  /\ path = Py.path_join (FileSystem.directoryPath self) requestedFilename
  /\ (Py.contains "/" requestedFilename = false ->
      path = FileSystem.directoryPath self ++ requestedFilename
      \/ path = FileSystem.directoryPath self ++ "/" ++ requestedFilename).
Proof.
  unfold FileSystem.getFileData.
  destruct (OS.listdir w (FileSystem.directoryPath self)) as [names|e] eqn:L;
    [|cbn; tauto].
  destruct (in_dec string_dec requestedFilename names) as [Hin|Hout].
  - rewrite getFileData_loop_listed by assumption.
    destruct (FileSystem.readBlock w
                (Py.path_join (FileSystem.directoryPath self) requestedFilename)
                blockno) as [r evs] eqn:R.
    assert (O : opened evs
                = [Py.path_join (FileSystem.directoryPath self) requestedFilename]).
    { rewrite <- (readBlock_opened w _ blockno), R. reflexivity. }
    cbn [snd opened]. rewrite O. intros [<-|[]].
    split; [eauto|]. split; [reflexivity|]. split; [reflexivity|].
    intros Hc. unfold Py.path_join.
    assert (S0 : Py.startswith_slash requestedFilename = false).
    { destruct requestedFilename as [|c s]; auto. cbn in Hc |- *.
      apply orb_false_iff in Hc. tauto. }
    rewrite S0.
    destruct (String.eqb (FileSystem.directoryPath self) ""
              || Py.endswith_slash (FileSystem.directoryPath self)); auto.
  - rewrite getFileData_loop_not_found by assumption. cbn. tauto.
Qed.

Lemma FileSystem_opens_only_listed_witness :
  opened (snd (FileSystem.getFileData servedWorld (FileSystem.__init__ None)
                 "woo.txt" 2))
  = ["/tmp/test_tftp/woo.txt"].
Proof.
  apply (proj1 (proj2 (FileSystem_opens_only_listed servedWorld
                         (FileSystem.__init__ None) "woo.txt" 2
                         "/tmp/test_tftp/woo.txt" (or_introl eq_refl)))).
Defined.

Lemma DummyFileSystem_loop_first (filename : string) (blockno : Z)
  (files : list (string * string)) :
  DummyFileSystem.getFileData_loop filename blockno files
  = match OS.assoc filename files with
    | Some data => PyStr (Py.slice (Z.to_nat (Z.max 0 ((blockno - 1) * 512))) 512 data)
    | None => PyNone
    end.
Proof.
  induction files as [|[myFile data] files IH]; cbn; auto.
  rewrite (String.eqb_sym myFile filename).
  destruct (String.eqb filename myFile); auto.
Qed.

(** X8: the in-memory provider of tests.py serves the data of the first
    entry with the requested name, in blocks of 512 bytes; a block number
    below 1 gives the first block again; a name with no entry gives [None],
    on which [nextData] raises [TypeError] with the block number already
    advanced and [done] untouched. *)
Theorem DummyFileSystem_serves_first_entry (files : list (string * string))
  (name : string) :
  let fs := DummyFileSystem.as_provider (DummyFileSystem.__init__ files) in
  (forall content, OS.assoc name files = Some content ->
     serves fs name content
     /\ forall k, k <= 1 -> fs name k = fs name 1)
  /\ (OS.assoc name files = None ->
      (forall k, fs name k = Return PyNone)
      /\ forall self,
          Download.fileSystem self = fs -> Download.filename self = name ->
          Download.nextData self
          = (Raise TypeError,
             Download.set_blockno (Download.blockno self + 1) self)).
Proof.
  cbv zeta. unfold DummyFileSystem.as_provider, DummyFileSystem.getFileData.
  cbn [DummyFileSystem.files DummyFileSystem.__init__]. split.
  - intros content H. split.
    + intros k Hk. rewrite DummyFileSystem_loop_first, H.
      replace (Z.max 0 ((k - 1) * 512)) with ((k - 1) * BLOCK_SIZE)
        by (unfold BLOCK_SIZE; lia).
      reflexivity.
    + intros k Hk. rewrite !DummyFileSystem_loop_first, H.
      replace (Z.max 0 ((k - 1) * 512)) with (Z.max 0 ((1 - 1) * 512)) by lia.
      reflexivity.
  - intros H. split.
    + intros k. now rewrite DummyFileSystem_loop_first, H.
    + intros self Hfs Hname. rewrite nextData_eq, Hfs, Hname.
      now rewrite DummyFileSystem_loop_first, H.
Qed.

Lemma DummyFileSystem_serves_first_entry_witness :
  serves testProvider "woo.txt" fileData
  /\ forall k, k <= 1 -> testProvider "woo.txt" k = testProvider "woo.txt" 1.
Proof.
  apply (proj1 (DummyFileSystem_serves_first_entry [("woo.txt", fileData)]
                  "woo.txt") fileData).
  reflexivity.
Defined.

(** ** Whole transfers *)

Lemma makeNextDataMessage_frame (self : Download.t) :
  let self' := snd (Download.makeNextDataMessage self) in
  Download.filename self' = Download.filename self
  /\ Download.mode self' = Download.mode self
  /\ Download.remoteHost self' = Download.remoteHost self
  /\ Download.remotePort self' = Download.remotePort self
  /\ Download.fileSystem self' = Download.fileSystem self.
Proof.
  cbv zeta. rewrite makeNextDataMessage_state. apply nextData_frame.
Qed.

Lemma after_calls_same (n : nat) (self : Download.t) :
  after_calls Download.makeNextDataMessage n self
  = after_calls Download.nextData n self.
Proof.
  revert self; induction n as [|n IH]; intros self; [reflexivity|].
  cbn [after_calls]. now rewrite makeNextDataMessage_state, IH.
Qed.

Lemma after_nextData_frame (n : nat) (self : Download.t) :
  Download.filename (after_calls Download.nextData n self) = Download.filename self
  /\ Download.fileSystem (after_calls Download.nextData n self)
     = Download.fileSystem self.
Proof.
  induction n as [|n [IHf IHs]]; [auto|].
  rewrite after_calls_S.
  pose proof (nextData_frame (after_calls Download.nextData n self))
    as (F & _ & _ & _ & P).
  cbv zeta in F, P. rewrite F, P. auto.
Qed.

Lemma payload_of_message (b data : string) :
  String.length b = 2%nat ->
  Py.slice_from 4 (opcodeMap DATA ++ b ++ data) = data.
Proof.
  destruct b as [|x [|y [|? ?]]]; try discriminate. reflexivity.
Qed.

(** The messages of [n] calls on a served resource: they all return, and
    their payloads are the next [n] blocks. *)
Lemma produce_serves (n : nat) (self : Download.t) (content : string) :
  serves (Download.fileSystem self) (Download.filename self) content ->
  0 <= Download.blockno self ->
  Download.blockno self + Z.of_nat n <= 65535 ->
  exists msgs,
    produce n self
    = (Return msgs, after_calls Download.makeNextDataMessage n self)
    /\ List.length msgs = n
    /\ payloads msgs
       = Py.slice (Z.to_nat (Download.blockno self) * 512) (n * 512) content.
Proof.
  revert self. induction n as [|n IH]; intros self Hs H0 Hn.
  - exists []. repeat split.
  - destruct (intToBytes (Download.blockno self + 1)) as [b|e] eqn:B.
    2:{ apply intToBytes_Raise in B as [B _]. lia. }
    set (data := Py.slice (Z.to_nat ((Download.blockno self + 1 - 1) * BLOCK_SIZE))
                   (Z.to_nat BLOCK_SIZE) content).
    pose proof (Hs (Download.blockno self + 1) ltac:(lia)) as P. fold data in P.
    set (self1 := if Z.of_nat (String.length data) <? BLOCK_SIZE
                  then Download.set_done true
                         (Download.set_blockno (Download.blockno self + 1) self)
                  else Download.set_blockno (Download.blockno self + 1) self).
    assert (M : Download.makeNextDataMessage self
                = (Return (opcodeMap DATA ++ b ++ data), self1)).
    { apply makeNextDataMessage_Return. exists data, b. auto. }
    pose proof (makeNextDataMessage_frame self) as (F & _ & _ & _ & Pf).
    cbv zeta in F, Pf. rewrite M in F, Pf. cbn [snd] in F, Pf.
    assert (Bn : Download.blockno self1 = Download.blockno self + 1).
    { pose proof (makeNextDataMessage_state self) as St.
      rewrite M in St. cbn [snd] in St. rewrite St. apply nextData_blockno. }
    destruct (IH self1) as (ms & Hp & Hl & Hc).
    + now rewrite F, Pf.
    + lia.
    + lia.
    + exists ((opcodeMap DATA ++ b ++ data) :: ms).
      rewrite produce_S, M, Hp. cbn [after_calls]. rewrite M. cbn [snd].
      split; [reflexivity|]. split; [cbn; now rewrite Hl|].
      cbn [payloads]. rewrite payload_of_message, Hc.
      2:{ apply intToBytes_Return in B as [_ ->]. reflexivity. }
      unfold data. rewrite Bn.
      replace (Z.to_nat ((Download.blockno self + 1 - 1) * BLOCK_SIZE))
        with (Z.to_nat (Download.blockno self) * 512)%nat
        by (unfold BLOCK_SIZE; lia).
      change (Z.to_nat BLOCK_SIZE) with 512%nat.
      replace (Z.to_nat (Download.blockno self + 1) * 512)%nat
        with (Z.to_nat (Download.blockno self) * 512 + 512)%nat by lia.
      replace (S n * 512)%nat with (512 + n * 512)%nat by lia.
      apply slice_app.
Qed.

Lemma short_at_serves (self : Download.t) (content : string) (k : nat) :
  serves (Download.fileSystem self) (Download.filename self) content ->
  Download.blockno self = 0 ->
  short_at self k = (String.length content <? (k + 1) * 512)%nat.
Proof.
  intros Hs H0. unfold short_at. rewrite nextData_eq. cbv zeta.
  destruct (after_nextData_frame k self) as [F P]. rewrite F, P.
  rewrite after_nextData_blockno, H0, Hs by lia.
  cbn [fst short_payload]. rewrite slice_length.
  change (Z.to_nat BLOCK_SIZE) with 512%nat.
  replace (Z.to_nat ((0 + Z.of_nat k + 1 - 1) * BLOCK_SIZE)) with (k * 512)%nat
    by (unfold BLOCK_SIZE; lia).
  unfold BLOCK_SIZE.
  destruct (Nat.ltb_spec (String.length content) ((k + 1) * 512));
    [apply Z.ltb_lt | apply Z.ltb_ge]; lia.
Qed.

(** X9: a new session over a provider that serves a content of [q] full
    blocks and [r < 512] more bytes: [q + 1] calls of [makeNextDataMessage]
    all return, the payloads of their messages put end to end are the
    content, [done] is set by the last of them and by none before, provided
    [q + 1] fits in an unsigned short. *)
Theorem transfer_delivers_content (self : Download.t) (content : string)
  (q r : nat) :
  serves (Download.fileSystem self) (Download.filename self) content ->
  Download.blockno self = 0 ->
  Download.done self = false ->
  String.length content = (512 * q + r)%nat ->
  (r < 512)%nat ->
  Z.of_nat (q + 1) <= 65535 ->
  exists msgs self',
    produce (q + 1) self = (Return msgs, self')
    /\ List.length msgs = (q + 1)%nat
    /\ payloads msgs = content
    /\ Download.done self' = true
    /\ forall n, (n <= q)%nat ->
         Download.done (after_calls Download.makeNextDataMessage n self) = false.
Proof.
  intros Hs H0 Hd HL Hr Hq.
  destruct (produce_serves (q + 1) self content Hs) as (msgs & Hp & Hl & Hc);
    [lia | lia |].
  exists msgs, (after_calls Download.makeNextDataMessage (q + 1) self).
  split; [exact Hp|]. split; [exact Hl|]. split; [|split].
  - rewrite Hc, H0. unfold Py.slice. cbn [Z.to_nat Nat.mul Py.slice_from].
    apply slice_to_all. lia.
  - rewrite after_calls_same. apply after_nextData_done. right.
    exists q. split; [lia|].
    rewrite (short_at_serves self content q Hs H0). apply Nat.ltb_lt. lia.
  - intros n Hn. rewrite after_calls_same.
    destruct (Download.done (after_calls Download.nextData n self)) eqn:E; auto.
    apply after_nextData_done in E as [E|(k & Hk & E)]; [congruence|].
    rewrite (short_at_serves self content k Hs H0) in E.
    apply Nat.ltb_lt in E. lia.
Qed.

Lemma transfer_delivers_content_witness :
  exists msgs self',
    produce 2 testDownload = (Return msgs, self')
    /\ List.length msgs = 2%nat
    /\ payloads msgs = fileData
    /\ Download.done self' = true
    /\ forall n, (n <= 1)%nat ->
         Download.done (after_calls Download.makeNextDataMessage n testDownload)
         = false.
Proof.
  apply (transfer_delivers_content testDownload fileData 1 8).
  - intros k Hk. unfold testDownload, testProvider. cbn [Download.fileSystem
      Download.filename Download.__init__ testRequest ReadRequest.filename].
    unfold DummyFileSystem.as_provider, DummyFileSystem.getFileData.
    rewrite DummyFileSystem_loop_first.
    replace (Z.max 0 ((k - 1) * 512)) with ((k - 1) * BLOCK_SIZE)
      by (unfold BLOCK_SIZE; lia).
    reflexivity.
  - reflexivity.
  - reflexivity.
  - reflexivity.
  - lia.
  - lia.
Defined.

(** ** Acks and the life of a session *)

Lemma Ack_of_encoding (n : Z) (b : string) :
  intToBytes n = Return b ->
  Ack.__init__ (opcodeMap ACK ++ b) = Return {| Ack.blockno := n |}.
Proof.
  intros H. pose proof (bytesToInt_intToBytes _ _ H) as R.
  apply intToBytes_Return in H as [_ ->].
  unfold Ack.__init__. cbn [opcodeMap String.append Py.slice_to Py.slice_from].
  cbn [String.eqb Ascii.eqb Bool.eqb andb negb]. now rewrite R.
Qed.

(** X10: the ack that carries the session's current block number, sent
    from the pinned address, does exactly what [makeNextDataMessage] does:
    it returns the next data message, or raises what producing it raises. *)
Theorem ack_of_current_block (self : Download.t) (b : string) :
  intToBytes (Download.blockno self) = Return b ->
  Download.ack (opcodeMap ACK ++ b) (Download.remoteHost self)
    (Download.remotePort self) self
  = Download.makeNextDataMessage self.
Proof.
  intros H. rewrite ack_eq.
  rewrite (proj2 (wrong_source_test _ _ self) (conj eq_refl eq_refl)).
  rewrite (Ack_of_encoding _ _ H). cbn [Ack.blockno].
  now rewrite Z.eqb_refl.
Qed.

Lemma ack_of_current_block_witness :
  Download.ack (opcodeMap ACK ++ String "000" (String "000" "")) "127.0.0.1" 1111
    testDownload
  = Download.makeNextDataMessage testDownload.
Proof.
  apply (ack_of_current_block testDownload (String "000" (String "000" ""))).
  reflexivity.
Defined.

(** X11: a returned data message is four bytes of header, the DATA opcode
    first, and then the payload the provider gave; [done] is set by the
    call exactly when the message is shorter than 516 bytes, and is never
    cleared by it. *)
Theorem message_length_tells_done (self self' : Download.t) (m : string) :
  Download.makeNextDataMessage self = (Return m, self') ->
  Py.slice_to 2 m = opcodeMap DATA
  /\ Download.fileSystem self (Download.filename self) (Download.blockno self + 1)
     = Return (PyStr (Py.slice_from 4 m))
  /\ String.length m = (4 + String.length (Py.slice_from 4 m))%nat
  /\ Download.done self' = Download.done self || (String.length m <? 516)%nat.
Proof.
  intros H. apply makeNextDataMessage_Return in H as (data & b & P & B & -> & ->).
  apply intToBytes_Return in B as [_ ->].
  cbn [opcodeMap String.append Py.slice_to Py.slice_from String.length].
  repeat split; auto.
  destruct (Z.ltb_spec (Z.of_nat (String.length data)) BLOCK_SIZE) as [L|L];
    unfold BLOCK_SIZE in L; cbn [Download.done Download.set_done Download.set_blockno].
  - replace (_ <? 516)%nat with true
      by (symmetry; apply Nat.ltb_lt; lia).
    now rewrite orb_true_r.
  - replace (_ <? 516)%nat with false
      by (symmetry; apply Nat.ltb_ge; lia).
    now rewrite orb_false_r.
Qed.

Lemma message_length_tells_done_witness :
  exists m self',
    Download.makeNextDataMessage testDownload = (Return m, self')
    /\ String.length m = (4 + String.length (Py.slice_from 4 m))%nat
    /\ Download.done self'
       = Download.done testDownload || (String.length m <? 516)%nat.
Proof.
  destruct (Download.makeNextDataMessage testDownload) as [[m|e] self'] eqn:E;
    [|vm_compute in E; discriminate].
  exists m, self'. split; [reflexivity|].
  pose proof (message_length_tells_done testDownload self' m E) as H.
  exact (conj (proj1 (proj2 (proj2 H))) (proj2 (proj2 (proj2 H)))).
Defined.

(** A call of [ack] leaves the session as it was or as [nextData] leaves
    it. *)
Lemma ack_state (message host : string) (port : Z) (self : Download.t) :
  snd (Download.ack message host port self) = self
  \/ snd (Download.ack message host port self) = snd (Download.nextData self).
Proof.
  rewrite ack_eq.
  destruct (negb (String.eqb host (Download.remoteHost self))
            || negb (port =? Download.remotePort self)); auto.
  destruct (Ack.__init__ message) as [a|e]; auto.
  destruct (negb (Ack.blockno a =? Download.blockno self)); auto.
  right. apply makeNextDataMessage_state.
Qed.

(** X12: whatever datagrams reach [ack], from wherever and in whatever
    order, the session keeps its filename, mode, pinned address and
    provider; its block number never goes down and goes up by at most one
    per datagram; and [done], once set, stays set. *)
Theorem ack_each_invariants (datagrams : list (string * string * Z))
  (self : Download.t) :
  let self' := ack_each datagrams self in
  Download.filename self' = Download.filename self
  /\ Download.mode self' = Download.mode self
  /\ Download.remoteHost self' = Download.remoteHost self
  /\ Download.remotePort self' = Download.remotePort self
  /\ Download.fileSystem self' = Download.fileSystem self
  /\ Download.blockno self <= Download.blockno self'
     <= Download.blockno self + Z.of_nat (List.length datagrams)
  /\ (Download.done self = true -> Download.done self' = true).
Proof.
  cbv zeta. revert self.
  induction datagrams as [|[[message host] port] datagrams IH]; intros self.
  - cbn. repeat split; auto; lia.
  - cbn [ack_each List.length].
    destruct (IH (snd (Download.ack message host port self)))
      as (F & M & H & P & S & B & D).
    destruct (ack_state message host port self) as [E|E]; rewrite E in *.
    + repeat split; auto; lia.
    + pose proof (nextData_frame self) as (F' & M' & H' & P' & S').
      cbv zeta in F', M', H', P', S'.
      rewrite nextData_blockno in B.
      repeat split; try congruence; try lia.
      intros Hd. apply D. rewrite nextData_done, Hd. reflexivity.
Qed.

(** X13: block numbers end at 65535.  Calls of [makeNextDataMessage] that
    all return never take the block number past 65535; at 65535 the next
    call cannot return; and a session whose block number is past 65535
    rejects every ack, unchanged. *)
Theorem block_number_limit (self : Download.t) :
  (forall n msgs self',
      produce n self = (Return msgs, self') ->
      n = O \/ Download.blockno self + Z.of_nat n <= 65535)
  /\ (65535 <= Download.blockno self ->
      forall m self', Download.makeNextDataMessage self <> (Return m, self'))
  /\ (65535 < Download.blockno self ->
      forall message host port,
      exists e, Download.ack message host port self = (Raise e, self)).
Proof.
  split; [|split].
  - intros [|n] msgs self' H; [auto | right].
    apply produce_Return in H as (_ & _ & Hk).
    destruct (Hk n (Nat.lt_succ_diag_r n)) as (m & Hm & _).
    apply message_block_number in Hm as (_ & _ & Hb).
    apply bytesToInt_range in Hb.
    rewrite after_makeNextDataMessage_blockno in Hb. lia.
  - intros Hb m self' H.
    apply makeNextDataMessage_Return in H as (_ & b & _ & B & _).
    apply intToBytes_Return in B as [B _]. lia.
  - intros Hb message host port. rewrite ack_eq.
    destruct (negb (String.eqb host (Download.remoteHost self))
              || negb (port =? Download.remotePort self)); eauto.
    destruct (Ack.__init__ message) as [a|e] eqn:A; eauto.
    destruct (Z.eqb_spec (Ack.blockno a) (Download.blockno self)) as [E|E];
      cbn [negb]; eauto.
    apply Ack_Return in A as (hi & lo & _ & A).
    pose proof (Z_of_byte_range hi). pose proof (Z_of_byte_range lo). lia.
Qed.

Lemma block_number_limit_witness :
  exists e,
    Download.ack (ackBytes "255" "255") "127.0.0.1" 1111
      (Download.set_blockno 65536 testDownload)
    = (Raise e, Download.set_blockno 65536 testDownload).
Proof.
  apply (proj2 (proj2 (block_number_limit
                         (Download.set_blockno 65536 testDownload)))).
  reflexivity.
Defined.

(** X14: when the provider raises for the next block, the call raises the
    same error with the block number already advanced and [done] as it was;
    the block is not asked for again: an ack for the number before the
    failure is now rejected, and any ack accepted afterwards brings the
    block after the one that failed. *)
Theorem failed_block_is_skipped (self : Download.t) (e : exn) :
  Download.fileSystem self (Download.filename self) (Download.blockno self + 1)
  = Raise e ->
  let self1 := Download.set_blockno (Download.blockno self + 1) self in
  Download.makeNextDataMessage self = (Raise e, self1)
  /\ Download.done self1 = Download.done self
  /\ (forall message host port a,
         Ack.__init__ message = Return a ->
         Ack.blockno a = Download.blockno self ->
         exists e', Download.ack message host port self1 = (Raise e', self1))
  /\ (forall message host port m self2,
         Download.ack message host port self1 = (Return m, self2) ->
         Download.blockno self2 = Download.blockno self + 2
         /\ bytesToInt (Py.slice 2 2 m) = Return (Download.blockno self + 2)).
Proof.
  intros P self1.
  assert (M : Download.makeNextDataMessage self = (Raise e, self1)).
  { rewrite makeNextDataMessage_eq, nextData_eq, P. reflexivity. }
  split; [exact M|]. split; [reflexivity|]. split.
  - intros message host port a A Hn. rewrite ack_eq.
    destruct (negb (String.eqb host (Download.remoteHost self1))
              || negb (port =? Download.remotePort self1)); eauto.
    rewrite A.
    destruct (Z.eqb_spec (Ack.blockno a) (Download.blockno self1)) as [E|E];
      cbn [negb]; eauto.
    unfold self1 in E. cbn in E. lia.
  - intros message host port m self2 H. rewrite ack_eq in H.
    destruct (negb (String.eqb host (Download.remoteHost self1))
              || negb (port =? Download.remotePort self1)); [discriminate|].
    destruct (Ack.__init__ message) as [a|e']; [|discriminate].
    destruct (negb (Ack.blockno a =? Download.blockno self1)); [discriminate|].
    apply message_block_number in H as (B & _ & D).
    unfold self1 in B. cbn in B. rewrite D. split; [lia | f_equal; lia].
Qed.

Lemma failed_block_is_skipped_witness :
  Download.makeNextDataMessage missingFileDownload
  = (Raise (BadDataError "File not found."),
     Download.set_blockno (Download.blockno missingFileDownload + 1)
       missingFileDownload).
Proof.
  apply (proj1 (failed_block_is_skipped missingFileDownload
                  (BadDataError "File not found.") eq_refl)).
Defined.

(** ** The supervisor and the listener *)

(** [datagramReceived] on an attached handler with a session, spelled
    out. *)
Lemma datagramReceived_eq (h : TftpDownloadHandler.t) (d : Download.t)
  (data host : string) (port : Z) :
  TftpDownloadHandler.transport h = true ->
  TftpDownloadHandler.download h = Some d ->
  TftpDownloadHandler.datagramReceived data host port h =
  let h0 := TftpDownloadHandler.emit
              (TftpDownloadHandler.TimeoutReset TftpDownloadHandler.timeoutPeriod) h in
  let h1 := if Download.done d
            then TftpDownloadHandler.emit TftpDownloadHandler.StopListening h0
            else h0 in
  match Download.ack data host port d with
  | (Return m, d') =>
      (Return tt,
       TftpDownloadHandler.emit (TftpDownloadHandler.TransportWrite m host port)
         (TftpDownloadHandler.set_download d' h1))
  | (Raise e, d') => (Raise e, TftpDownloadHandler.set_download d' h1)
  end.
Proof.
  intros Ht Hd. destruct h as [rr rh rp fs tr dl ef]. cbn in Ht, Hd. subst.
  unfold TftpDownloadHandler.datagramReceived.
  generalize (Download.ack data host port). intros acked.
  unfold TftpDownloadHandler.on_download, TftpDownloadHandler.transport_method,
    bind, modify, get, ret, raise.
  cbn. destruct (Download.done d); cbn;
    destruct (acked d) as [[m|e] d']; reflexivity.
Qed.

(** [startProtocol] on an attached handler, spelled out. *)
Lemma startProtocol_eq (w : OS.world) (h : TftpDownloadHandler.t) :
  TftpDownloadHandler.transport h = true ->
  TftpDownloadHandler.startProtocol w h =
  match Download.makeNextDataMessage
          (Download.__init__ w (TftpDownloadHandler.readRequest h)
             (TftpDownloadHandler.remoteHost h) (TftpDownloadHandler.remotePort h)
             (TftpDownloadHandler.fileSystem h)) with
  | (Return m, d) =>
      (Return tt,
       TftpDownloadHandler.emit
         (TftpDownloadHandler.TransportWrite m (TftpDownloadHandler.remoteHost h)
            (TftpDownloadHandler.remotePort h))
         (TftpDownloadHandler.set_download d h))
  | (Raise e, d) => (Raise e, TftpDownloadHandler.set_download d h)
  end.
Proof.
  intros Ht. destruct h as [rr rh rp fs tr dl ef]. cbn in Ht. subst.
  unfold TftpDownloadHandler.startProtocol.
  generalize Download.makeNextDataMessage. intros make.
  unfold TftpDownloadHandler.on_download, TftpDownloadHandler.transport_method,
    bind, modify, get, ret, raise.
  cbn. destruct (make _) as [[m|e] d]; reflexivity.
Qed.

Lemma ack_Return_source (message host : string) (port : Z)
  (self self' : Download.t) (m : string) :
  Download.ack message host port self = (Return m, self') ->
  host = Download.remoteHost self /\ port = Download.remotePort self.
Proof.
  rewrite ack_eq.
  destruct (negb (String.eqb host (Download.remoteHost self))
            || negb (port =? Download.remotePort self)) eqn:Src; [discriminate|].
  intros _. now apply wrong_source_test.
Qed.

Lemma ack_frame (message host : string) (port : Z) (self : Download.t) :
  let self' := snd (Download.ack message host port self) in
  Download.remoteHost self' = Download.remoteHost self
  /\ Download.remotePort self' = Download.remotePort self
  /\ Download.blockno self <= Download.blockno self'
  /\ (Download.done self = true -> Download.done self' = true).
Proof.
  cbv zeta. destruct (ack_state message host port self) as [E|E]; rewrite E.
  - repeat split; auto; lia.
  - pose proof (nextData_frame self) as (_ & _ & H & P & _). cbv zeta in H, P.
    rewrite nextData_blockno, nextData_done. repeat split; auto; try lia.
    intros ->. reflexivity.
Qed.

Lemma first_message_serves (self : Download.t) (content : string) :
  serves (Download.fileSystem self) (Download.filename self) content ->
  Download.blockno self = 0 ->
  Download.makeNextDataMessage self
  = (Return (opcodeMap DATA ++ String "000" (String "001" "")
               ++ Py.slice_to 512 content),
     if (String.length content <? 512)%nat
     then Download.set_done true (Download.set_blockno 1 self)
     else Download.set_blockno 1 self).
Proof.
  intros Hs H0. apply makeNextDataMessage_Return.
  exists (Py.slice_to 512 content), (String "000" (String "001" "")).
  rewrite H0. split; [|split; [reflexivity|split; [reflexivity|]]].
  - rewrite <- H0 at 1. rewrite (Hs (Download.blockno self + 1)) by lia.
    rewrite H0. reflexivity.
  - rewrite slice_to_length. unfold BLOCK_SIZE. cbn [Z.add].
    destruct (Nat.ltb_spec (String.length content) 512) as [L|L].
    + replace (_ <? 512) with true by (symmetry; apply Z.ltb_lt; lia). reflexivity.
    + replace (_ <? 512) with false by (symmetry; apply Z.ltb_ge; lia). reflexivity.
Qed.

(** X15: on an attached handler whose provider serves the requested file,
    [startProtocol] creates the session and writes one message, to the
    address the handler was created for: the DATA opcode, block number 1
    and the first 512 bytes of the content (all of it when shorter).  The
    session then awaits the ack of block 1, already done when the content
    is shorter than a block. *)
Theorem startProtocol_sends_first_block (w : OS.world) (h : TftpDownloadHandler.t)
  (content : string) :
  TftpDownloadHandler.transport h = true ->
  serves (Download.fileSystem
            (Download.__init__ w (TftpDownloadHandler.readRequest h)
               (TftpDownloadHandler.remoteHost h) (TftpDownloadHandler.remotePort h)
               (TftpDownloadHandler.fileSystem h)))
    (ReadRequest.filename (TftpDownloadHandler.readRequest h)) content ->
  exists h' d,
    TftpDownloadHandler.startProtocol w h = (Return tt, h')
    /\ TftpDownloadHandler.effects h'
       = (TftpDownloadHandler.effects h
            ++ [TftpDownloadHandler.TransportWrite
                  (opcodeMap DATA ++ String "000" (String "001" "")
                     ++ Py.slice_to 512 content)
                  (TftpDownloadHandler.remoteHost h)
                  (TftpDownloadHandler.remotePort h)])%list
    /\ TftpDownloadHandler.download h' = Some d
    /\ Download.blockno d = 1
    /\ Download.done d = (String.length content <? 512)%nat
    /\ Download.remoteHost d = TftpDownloadHandler.remoteHost h
    /\ Download.remotePort d = TftpDownloadHandler.remotePort h.
Proof.
  intros Ht Hs. rewrite (startProtocol_eq w h Ht).
  rewrite (first_message_serves _ content Hs eq_refl).
  destruct h as [rr rh rp fs tr dl ef].
  destruct (String.length content <? 512)%nat;
    eexists; eexists; (split; [reflexivity|]); cbn; repeat split.
Qed.

Lemma startProtocol_sends_first_block_witness :
  exists h' d,
    TftpDownloadHandler.startProtocol noWorld testHandler = (Return tt, h')
    /\ TftpDownloadHandler.effects h'
       = (TftpDownloadHandler.effects testHandler
            ++ [TftpDownloadHandler.TransportWrite
                  (opcodeMap DATA ++ String "000" (String "001" "")
                     ++ Py.slice_to 512 fileData)
                  "127.0.0.1" 1111])%list
    /\ TftpDownloadHandler.download h' = Some d
    /\ Download.blockno d = 1
    /\ Download.done d = (String.length fileData <? 512)%nat
    /\ Download.remoteHost d = "127.0.0.1"
    /\ Download.remotePort d = 1111.
Proof.
  apply (startProtocol_sends_first_block noWorld testHandler fileData eq_refl).
  intros k Hk. cbn [Download.fileSystem Download.__init__ testHandler
    TftpDownloadHandler.fileSystem TftpDownloadHandler.makeConnection
    TftpDownloadHandler.__init__ TftpDownloadHandler.readRequest testRequest
    ReadRequest.filename].
  unfold testProvider, DummyFileSystem.as_provider, DummyFileSystem.getFileData.
  rewrite DummyFileSystem_loop_first.
  replace (Z.max 0 ((k - 1) * 512)) with ((k - 1) * BLOCK_SIZE)
    by (unfold BLOCK_SIZE; lia).
  reflexivity.
Defined.

(** X16: a datagram that reaches an attached handler before the session is
    done rearms the timer and is handed to [ack].  When [ack] returns a
    message it is written back to the sender, who is then the pinned
    client, and nothing else is done; when [ack] raises, the error
    propagates with nothing written and the port still listening. *)
Theorem datagram_before_done (h : TftpDownloadHandler.t) (d : Download.t)
  (data host : string) (port : Z) :
  TftpDownloadHandler.transport h = true ->
  TftpDownloadHandler.download h = Some d ->
  Download.done d = false ->
  let r := TftpDownloadHandler.datagramReceived data host port h in
  let a := Download.ack data host port d in
  TftpDownloadHandler.download (snd r) = Some (snd a)
  /\ match fst a with
     | Return m =>
         fst r = Return tt
         /\ TftpDownloadHandler.effects (snd r)
            = (TftpDownloadHandler.effects h
                 ++ [TftpDownloadHandler.TimeoutReset 5;
                     TftpDownloadHandler.TransportWrite m host port])%list
         /\ host = Download.remoteHost d /\ port = Download.remotePort d
     | Raise e =>
         fst r = Raise e
         /\ TftpDownloadHandler.effects (snd r)
            = (TftpDownloadHandler.effects h
                 ++ [TftpDownloadHandler.TimeoutReset 5])%list
     end.
Proof.
  intros Ht Hd Hdone. cbv zeta.
  rewrite (datagramReceived_eq h d data host port Ht Hd), Hdone. cbv zeta.
  destruct (Download.ack data host port d) as [[m|e] d'] eqn:A;
    destruct h as [rr rh rp fs tr dl ef]; cbn; repeat split.
  - now rewrite <- app_assoc.
  - now apply ack_Return_source in A.
  - now apply ack_Return_source in A.
Qed.

Lemma datagram_before_done_witness :
  TftpDownloadHandler.effects
    (snd (TftpDownloadHandler.datagramReceived "junk" "10.0.0.9" 69
            (snd (TftpDownloadHandler.startProtocol noWorld testHandler))))
  = (TftpDownloadHandler.effects
       (snd (TftpDownloadHandler.startProtocol noWorld testHandler))
       ++ [TftpDownloadHandler.TimeoutReset 5])%list.
Proof.
  refine (let H := datagram_before_done
                     (snd (TftpDownloadHandler.startProtocol noWorld testHandler))
                     (snd (Download.makeNextDataMessage testDownload))
                     "junk" "10.0.0.9" 69 eq_refl eq_refl eq_refl in
          proj2 (proj2 H)).
Defined.

Lemma written_app (a b : list TftpDownloadHandler.effect) :
  written (a ++ b) = (written a ++ written b)%list.
Proof.
  induction a as [|[p|p| |payload host port] a IH]; cbn; auto.
  now rewrite IH.
Qed.

(** One datagram on an attached handler with a session: what is added to
    the effects holds at most one write, to the pinned address. *)
Lemma datagramReceived_step (h : TftpDownloadHandler.t) (d : Download.t)
  (data host : string) (port : Z) :
  TftpDownloadHandler.transport h = true ->
  TftpDownloadHandler.download h = Some d ->
  let h' := snd (TftpDownloadHandler.datagramReceived data host port h) in
  exists evs,
    TftpDownloadHandler.effects h' = (TftpDownloadHandler.effects h ++ evs)%list
    /\ Forall (fun wr => snd (fst wr) = Download.remoteHost d
                         /\ snd wr = Download.remotePort d) (written evs)
    /\ (List.length (written evs) <= 1)%nat
    /\ TftpDownloadHandler.transport h' = true
    /\ TftpDownloadHandler.download h'
       = Some (snd (Download.ack data host port d)).
Proof.
  intros Ht Hd. cbv zeta.
  rewrite (datagramReceived_eq h d data host port Ht Hd). cbv zeta.
  destruct (Download.ack data host port d) as [[m|e] d'] eqn:A;
    destruct h as [rr rh rp fs tr dl ef]; cbn in Ht |- *; subst;
    destruct (Download.done d); cbn; rewrite <- ?app_assoc; cbn;
    eexists; (split; [reflexivity|]); cbn; repeat split; auto;
    try (apply ack_Return_source in A as [-> ->]; repeat constructor).
Qed.

(** X17: whatever datagrams are delivered to an attached handler with a
    session, every data message it writes goes to the pinned address of
    that session, there is at most one per datagram, and the session stays
    pinned to the same address with a block number that never goes down. *)
Theorem deliver_writes_to_pinned (datagrams : list (string * string * Z))
  (h : TftpDownloadHandler.t) (d : Download.t) :
  TftpDownloadHandler.transport h = true ->
  TftpDownloadHandler.download h = Some d ->
  exists evs d',
    TftpDownloadHandler.effects (deliver datagrams h)
    = (TftpDownloadHandler.effects h ++ evs)%list
    /\ Forall (fun wr => snd (fst wr) = Download.remoteHost d
                         /\ snd wr = Download.remotePort d) (written evs)
    /\ (List.length (written evs) <= List.length datagrams)%nat
    /\ TftpDownloadHandler.download (deliver datagrams h) = Some d'
    /\ Download.remoteHost d' = Download.remoteHost d
    /\ Download.remotePort d' = Download.remotePort d
    /\ Download.blockno d <= Download.blockno d'.
Proof.
  revert h d.
  induction datagrams as [|[[data host] port] datagrams IH]; intros h d Ht Hd.
  - exists [], d. cbn. rewrite app_nil_r. repeat split; auto. lia.
  - cbn [deliver List.length].
    destruct (datagramReceived_step h d data host port Ht Hd)
      as (evs1 & E1 & W1 & L1 & T1 & D1).
    cbv zeta in E1, T1, D1.
    pose proof (ack_frame data host port d) as (Fh & Fp & Fb & _).
    cbv zeta in Fh, Fp, Fb.
    destruct (IH _ _ T1 D1) as (evs2 & d' & E2 & W2 & L2 & D2 & Hh & Hp & Hb).
    exists (evs1 ++ evs2)%list, d'.
    rewrite E2, E1, <- app_assoc, written_app, length_app.
    repeat split; auto; try congruence; try lia.
    apply Forall_app. split; auto.
    rewrite Fh, Fp in W2. exact W2.
Qed.

Lemma deliver_writes_to_pinned_witness :
  exists evs d',
    TftpDownloadHandler.effects
      (deliver [("junk", "10.0.0.9", 69); (ackBytes "000" "001", "127.0.0.1", 1111)]
         (snd (TftpDownloadHandler.startProtocol noWorld testHandler)))
    = (TftpDownloadHandler.effects
         (snd (TftpDownloadHandler.startProtocol noWorld testHandler)) ++ evs)%list
    /\ Forall (fun wr => snd (fst wr) = "127.0.0.1" /\ snd wr = 1111) (written evs)
    /\ (List.length (written evs) <= 2)%nat
    /\ TftpDownloadHandler.download
         (deliver [("junk", "10.0.0.9", 69);
                   (ackBytes "000" "001", "127.0.0.1", 1111)]
            (snd (TftpDownloadHandler.startProtocol noWorld testHandler)))
       = Some d'
    /\ Download.remoteHost d' = "127.0.0.1"
    /\ Download.remotePort d' = 1111
    /\ 1 <= Download.blockno d'.
Proof.
  apply (deliver_writes_to_pinned
           [("junk", "10.0.0.9", 69); (ackBytes "000" "001", "127.0.0.1", 1111)]
           (snd (TftpDownloadHandler.startProtocol noWorld testHandler))
           (snd (Download.makeNextDataMessage testDownload))
           eq_refl eq_refl).
Defined.

Lemma as_provider_serves (w : OS.world) (self : FileSystem.t)
  (names : list string) (name content : string) :
  OS.listdir w (FileSystem.directoryPath self) = Return names ->
  In name names ->
  OS.assoc (Py.path_join (FileSystem.directoryPath self) name) (OS.files w)
  = Some content ->
  serves (FileSystem.as_provider w self) name content.
Proof.
  intros L Hin Hf k Hk.
  unfold FileSystem.as_provider, FileSystem.getFileData.
  rewrite L, getFileData_loop_listed by assumption.
  unfold FileSystem.readBlock. rewrite Hf.
  destruct (Z.ltb_spec ((k - 1) * BLOCK_SIZE) 0) as [H|H];
    [unfold BLOCK_SIZE in H; lia | reflexivity].
Qed.

Lemma ReadRequest_of_fields (filename mode : string) :
  Py.contains Py.NUL filename = false ->
  Py.contains Py.NUL mode = false ->
  ReadRequest.__init__ (opcodeMap RRQ ++ filename ++ NUL1 ++ mode ++ NUL1)
  = Return {| ReadRequest.filename := filename; ReadRequest.mode := mode |}.
Proof.
  intros Hf Hm. apply ReadRequest_Return. exists "".
  cbn [ReadRequest.filename ReadRequest.mode]. repeat split; auto.
Qed.

(** X18: the listener hands a new handler to the reactor exactly for the
    datagrams [ReadRequest] accepts: one [listenUDP] on port 0, with a
    handler for the parsed request that is pinned to the sender, has its
    timer scheduled, no file system of its own and no session yet.  A
    datagram [ReadRequest] rejects raises that error and opens no port. *)
Theorem listener_opens_port_for_requests (data host : string) (port : Z) :
  (forall rr, ReadRequest.__init__ data = Return rr ->
     exists h,
       TftpReadRequestHandler.datagramReceived data host port
       = (Return tt, [TftpReadRequestHandler.ListenUDP 0 h])
       /\ TftpDownloadHandler.readRequest h = rr
       /\ TftpDownloadHandler.remoteHost h = host
       /\ TftpDownloadHandler.remotePort h = port
       /\ TftpDownloadHandler.fileSystem h = None
       /\ TftpDownloadHandler.download h = None
       /\ TftpDownloadHandler.effects h = [TftpDownloadHandler.CallLater 5])
  /\ ((String.length data < 2)%nat \/ Py.slice_to 2 data <> opcodeMap RRQ
      \/ count Py.NUL (Py.slice_from 2 data) <> 2%nat ->
      exists e,
        TftpReadRequestHandler.datagramReceived data host port = (Raise e, [])).
Proof.
  unfold TftpReadRequestHandler.datagramReceived. split.
  - intros rr ->. eexists. repeat split.
  - intros H. destruct (ReadRequest.__init__ data) as [rr|e] eqn:E; eauto.
    exfalso. apply ReadRequest_Return in E as (n & E & Hf & Hm & Hn).
    assert (S2 : Py.split Py.NUL (Py.slice_from 2 data)
                 = [ReadRequest.filename rr; ReadRequest.mode rr; n]).
    { rewrite E. change (Py.slice_from 2 (opcodeMap RRQ ++ ?x)) with x.
      apply split_join; [discriminate | repeat constructor; assumption]. }
    pose proof (split_length Py.NUL (Py.slice_from 2 data)) as SL.
    rewrite S2 in SL. cbn [List.length] in SL.
    destruct H as [H|[H|H]].
    + rewrite E in H. cbn in H. lia.
    + rewrite E in H. now apply H.
    + lia.
Qed.

Lemma listener_opens_port_for_requests_witness :
  exists e,
    TftpReadRequestHandler.datagramReceived (ackBytes "000" "001") "10.0.0.9" 4242
    = (Raise e, []).
Proof.
  apply (proj2 (listener_opens_port_for_requests (ackBytes "000" "001")
                  "10.0.0.9" 4242)).
  right. left. discriminate.
Defined.

(** X19: from request to first block.  A read request for a file listed in
    the default directory and readable there makes the listener create a
    handler which, once attached and started on that machine, writes to the
    requester the DATA opcode, block number 1 and the first 512 bytes of
    the file, and awaits the ack of block 1. *)
Theorem read_request_gets_first_block (w : OS.world) (names : list string)
  (filename mode content host : string) (port : Z) :
  Py.contains Py.NUL filename = false ->
  Py.contains Py.NUL mode = false ->
  OS.listdir w "/tmp/test_tftp" = Return names ->
  In filename names ->
  OS.assoc (Py.path_join "/tmp/test_tftp" filename) (OS.files w) = Some content ->
  exists h h' d,
    TftpReadRequestHandler.datagramReceived
      (opcodeMap RRQ ++ filename ++ NUL1 ++ mode ++ NUL1) host port
    = (Return tt, [TftpReadRequestHandler.ListenUDP 0 h])
    /\ TftpDownloadHandler.startProtocol w (TftpDownloadHandler.makeConnection h)
       = (Return tt, h')
    /\ TftpDownloadHandler.effects h'
       = [TftpDownloadHandler.CallLater 5;
          TftpDownloadHandler.TransportWrite
            (opcodeMap DATA ++ String "000" (String "001" "")
               ++ Py.slice_to 512 content) host port]
    /\ TftpDownloadHandler.download h' = Some d
    /\ Download.blockno d = 1
    /\ Download.done d = (String.length content <? 512)%nat
    /\ Download.remoteHost d = host /\ Download.remotePort d = port.
Proof.
  intros Hf Hm L Hin Ha.
  unfold TftpReadRequestHandler.datagramReceived.
  rewrite (ReadRequest_of_fields filename mode Hf Hm).
  set (rr := {| ReadRequest.filename := filename; ReadRequest.mode := mode |}).
  set (h := TftpDownloadHandler.__init__ rr host port None).
  assert (Hs : serves
                 (Download.fileSystem (Download.__init__ w rr host port None))
                 (Download.filename (Download.__init__ w rr host port None))
                 content).
  { apply (as_provider_serves w (FileSystem.__init__ None) names filename content);
      assumption. }
  pose proof (first_message_serves _ content Hs eq_refl) as M.
  assert (St : TftpDownloadHandler.startProtocol w
                 (TftpDownloadHandler.makeConnection h)
               = match Download.makeNextDataMessage
                         (Download.__init__ w rr host port None) with
                 | (Return m, d) =>
                     (Return tt,
                      TftpDownloadHandler.emit
                        (TftpDownloadHandler.TransportWrite m host port)
                        (TftpDownloadHandler.set_download d
                           (TftpDownloadHandler.makeConnection h)))
                 | (Raise e, d) =>
                     (Raise e,
                      TftpDownloadHandler.set_download d
                        (TftpDownloadHandler.makeConnection h))
                 end).
  { apply (startProtocol_eq w (TftpDownloadHandler.makeConnection h)). reflexivity. }
  rewrite M in St.
  destruct (String.length content <? 512)%nat;
    exists h; eexists; eexists; (split; [reflexivity|]);
    (split; [exact St|]); cbn; repeat split.
Qed.

Lemma read_request_gets_first_block_witness :
  exists h h' d,
    TftpReadRequestHandler.datagramReceived
      (opcodeMap RRQ ++ "woo.txt" ++ NUL1 ++ "netascii" ++ NUL1) "127.0.0.1" 1111
    = (Return tt, [TftpReadRequestHandler.ListenUDP 0 h])
    /\ TftpDownloadHandler.startProtocol servedWorld
         (TftpDownloadHandler.makeConnection h)
       = (Return tt, h')
    /\ TftpDownloadHandler.effects h'
       = [TftpDownloadHandler.CallLater 5;
          TftpDownloadHandler.TransportWrite
            (opcodeMap DATA ++ String "000" (String "001" "")
               ++ Py.slice_to 512 fileData) "127.0.0.1" 1111]
    /\ TftpDownloadHandler.download h' = Some d
    /\ Download.blockno d = 1
    /\ Download.done d = (String.length fileData <? 512)%nat
    /\ Download.remoteHost d = "127.0.0.1" /\ Download.remotePort d = 1111.
Proof.
  apply (read_request_gets_first_block servedWorld ["woo.txt"; "sub"]
           "woo.txt" "netascii" fileData "127.0.0.1" 1111
           eq_refl eq_refl eq_refl (or_introl eq_refl) eq_refl).
Defined.

(** X20: the same datagram twice in a row never advances the session
    twice: whatever the first call of [ack] did, the second raises and
    leaves the session as the first left it. *)
Theorem duplicate_datagram_rejected (self : Download.t) (message host : string)
  (port : Z) :
  let self1 := snd (Download.ack message host port self) in
  exists e, Download.ack message host port self1 = (Raise e, self1).
Proof.
  cbv zeta.
  pose proof (ack_frame message host port self) as (Fh & Fp & _ & _).
  cbv zeta in Fh, Fp.
  rewrite (ack_eq message host port (snd (Download.ack message host port self))).
  rewrite Fh, Fp.
  destruct (negb (String.eqb host (Download.remoteHost self))
            || negb (port =? Download.remotePort self)) eqn:Src; eauto.
  destruct (Ack.__init__ message) as [a|e] eqn:A; eauto.
  destruct (Z.eqb_spec (Ack.blockno a)
              (Download.blockno (snd (Download.ack message host port self))))
    as [E|E]; cbn [negb]; eauto.
  exfalso. rewrite ack_eq, Src, A in E.
  destruct (Z.eqb_spec (Ack.blockno a) (Download.blockno self)) as [E0|E0];
    cbn [negb snd] in E.
  - rewrite makeNextDataMessage_state, nextData_blockno in E. lia.
  - contradiction.
Qed.

(** ** A transfer through the supervisor *)

Lemma deliver_acks_writes (n : nat) :
  forall (h : TftpDownloadHandler.t) (d d' : Download.t) (msgs : list string),
    TftpDownloadHandler.transport h = true ->
    TftpDownloadHandler.download h = Some d ->
    0 <= Download.blockno d ->
    produce n d = (Return msgs, d') ->
    (forall k, (k < n)%nat ->
       Download.done (after_calls Download.makeNextDataMessage k d) = false) ->
    TftpDownloadHandler.effects (deliver_acks n h)
    = (TftpDownloadHandler.effects h
         ++ acked_writes msgs (Download.remoteHost d) (Download.remotePort d))%list
    /\ TftpDownloadHandler.download (deliver_acks n h) = Some d'
    /\ TftpDownloadHandler.transport (deliver_acks n h) = true.
Proof.
  induction n as [|n IH]; intros h d d' msgs Ht Hd H0 Hp Hdone.
  - cbn in Hp. unfold ret in Hp. inversion Hp; subst.
    cbn. rewrite app_nil_r. auto.
  - rewrite produce_S in Hp.
    destruct (Download.makeNextDataMessage d) as [[m|e] d1] eqn:M; [|discriminate].
    destruct (produce n d1) as [[ms|e] d2] eqn:P; [|discriminate].
    inversion Hp as [[Hmsgs Hd']]; subst msgs d'; clear Hp.
    pose proof (message_block_number _ _ _ M) as (B1 & _ & R1).
    apply bytesToInt_range in R1.
    destruct (intToBytes (Download.blockno d)) as [b|e] eqn:B.
    2:{ apply intToBytes_Raise in B as [B _]. lia. }
    assert (A : Download.ack (opcodeMap ACK ++ b) (Download.remoteHost d)
                  (Download.remotePort d) d = (Return m, d1)).
    { rewrite ack_eq.
      rewrite (proj2 (wrong_source_test _ _ d) (conj eq_refl eq_refl)).
      rewrite (Ack_of_encoding _ _ B). cbn [Ack.blockno].
      now rewrite Z.eqb_refl. }
    pose proof (datagramReceived_eq h d (opcodeMap ACK ++ b)
                  (Download.remoteHost d) (Download.remotePort d) Ht Hd) as St.
    pose proof (Hdone O (Nat.lt_0_succ n)) as Hd0. cbn [after_calls] in Hd0.
    rewrite A, Hd0 in St. cbv zeta in St.
    cbn [deliver_acks]. rewrite Hd, B, St. cbn [snd].
    pose proof (makeNextDataMessage_frame d) as (_ & _ & Fh & Fp & _).
    cbv zeta in Fh, Fp. rewrite M in Fh, Fp. cbn [snd] in Fh, Fp.
    destruct (IH (TftpDownloadHandler.emit
                    (TftpDownloadHandler.TransportWrite m (Download.remoteHost d)
                       (Download.remotePort d))
                    (TftpDownloadHandler.set_download d1
                       (TftpDownloadHandler.emit
                          (TftpDownloadHandler.TimeoutReset
                             TftpDownloadHandler.timeoutPeriod) h)))
                d1 d2 ms) as (E & D & T).
    + destruct h; exact Ht.
    + destruct h; reflexivity.
    + lia.
    + exact P.
    + intros k Hk. specialize (Hdone (S k) ltac:(lia)).
      cbn [after_calls] in Hdone. now rewrite M in Hdone.
    + rewrite E, D, T, Fh, Fp. repeat split.
      destruct h as [rr rh rp fs tr dl ef]. cbn.
      now rewrite <- !app_assoc.
Qed.

(** X21: a whole transfer through the supervisor.  An attached handler
    whose provider serves a content of [q] full blocks and [r < 512] more
    bytes, started and then acknowledged [q] times by its client, has
    written [q + 1] data messages to that client and nothing to anyone
    else; their payloads put end to end are the content; the session is
    done; and the handler has reset its timer once per ack and has not
    stopped listening. *)
Theorem supervised_transfer_delivers_content (w : OS.world)
  (h : TftpDownloadHandler.t) (content : string) (q r : nat) :
  TftpDownloadHandler.transport h = true ->
  serves (Download.fileSystem
            (Download.__init__ w (TftpDownloadHandler.readRequest h)
               (TftpDownloadHandler.remoteHost h) (TftpDownloadHandler.remotePort h)
               (TftpDownloadHandler.fileSystem h)))
    (ReadRequest.filename (TftpDownloadHandler.readRequest h)) content ->
  String.length content = (512 * q + r)%nat ->
  (r < 512)%nat ->
  Z.of_nat (q + 1) <= 65535 ->
  let h' := deliver_acks q (snd (TftpDownloadHandler.startProtocol w h)) in
  exists first rest d,
    TftpDownloadHandler.effects h'
    = (TftpDownloadHandler.effects h
         ++ TftpDownloadHandler.TransportWrite first
              (TftpDownloadHandler.remoteHost h) (TftpDownloadHandler.remotePort h)
         :: acked_writes rest (TftpDownloadHandler.remoteHost h)
              (TftpDownloadHandler.remotePort h))%list
    /\ List.length rest = q
    /\ payloads (first :: rest) = content
    /\ TftpDownloadHandler.download h' = Some d
    /\ Download.done d = true
    /\ Download.blockno d = Z.of_nat (q + 1).
Proof.
  intros Ht Hs HL Hr Hq. cbv zeta.
  set (d0 := Download.__init__ w (TftpDownloadHandler.readRequest h)
               (TftpDownloadHandler.remoteHost h) (TftpDownloadHandler.remotePort h)
               (TftpDownloadHandler.fileSystem h)) in *.
  assert (Hs0 : serves (Download.fileSystem d0) (Download.filename d0) content)
    by exact Hs.
  destruct (produce_serves (q + 1) d0 content Hs0) as (msgs & Hp & Hl & Hc);
    [cbn; lia | cbn; lia |].
  assert (Hnd : forall n, (n <= q)%nat ->
            Download.done (after_calls Download.makeNextDataMessage n d0) = false).
  { intros n Hn. rewrite after_calls_same.
    destruct (Download.done (after_calls Download.nextData n d0)) eqn:E; auto.
    apply after_nextData_done in E as [E|(k & Hk & E)]; [discriminate|].
    rewrite (short_at_serves d0 content k Hs0 eq_refl) in E.
    apply Nat.ltb_lt in E. lia. }
  replace (q + 1)%nat with (S q) in Hp, Hl by lia.
  rewrite produce_S in Hp.
  destruct (Download.makeNextDataMessage d0) as [[m|e] d1] eqn:M; [|discriminate].
  destruct (produce q d1) as [[ms|e] d2] eqn:P; [|discriminate].
  inversion Hp as [[Hm Hd2]]; subst msgs; clear Hp.
  pose proof (startProtocol_eq w h Ht) as St. fold d0 in St. rewrite M in St.
  pose proof (message_block_number _ _ _ M) as (B1 & _ & _).
  pose proof (makeNextDataMessage_frame d0) as (_ & _ & Fh & Fp & _).
  cbv zeta in Fh, Fp. rewrite M in Fh, Fp. cbn [snd] in Fh, Fp.
  destruct (deliver_acks_writes q
              (TftpDownloadHandler.emit
                 (TftpDownloadHandler.TransportWrite m
                    (TftpDownloadHandler.remoteHost h)
                    (TftpDownloadHandler.remotePort h))
                 (TftpDownloadHandler.set_download d1 h))
              d1 d2 ms) as (E & D & T).
  - destruct h; exact Ht.
  - destruct h; reflexivity.
  - rewrite B1. cbn. lia.
  - exact P.
  - intros k Hk. specialize (Hnd (S k) ltac:(lia)).
    cbn [after_calls] in Hnd. now rewrite M in Hnd.
  - exists m, ms, d2. rewrite St. cbn [snd]. rewrite E, D, Fh, Fp.
    split.
    { destruct h as [rr rh rp fs tr dl ef]. cbn. now rewrite <- app_assoc. }
    split; [cbn in Hl; lia|].
    split.
    { rewrite Hc. unfold Py.slice. cbn [Download.blockno d0 Download.__init__
        Z.to_nat Nat.mul Py.slice_from]. apply slice_to_all. lia. }
    split; [reflexivity|].
    assert (Hd2' : d2 = after_calls Download.makeNextDataMessage (S q) d0).
    { cbn [after_calls]. exact Hd2. }
    split.
    + rewrite Hd2', after_calls_same. apply after_nextData_done. right.
      exists q. split; [lia|].
      rewrite (short_at_serves d0 content q Hs0 eq_refl). apply Nat.ltb_lt. lia.
    + rewrite Hd2', after_makeNextDataMessage_blockno. cbn. lia.
Qed.

Lemma supervised_transfer_delivers_content_witness :
  exists first rest d,
    TftpDownloadHandler.effects
      (deliver_acks 1 (snd (TftpDownloadHandler.startProtocol noWorld testHandler)))
    = (TftpDownloadHandler.effects testHandler
         ++ TftpDownloadHandler.TransportWrite first "127.0.0.1" 1111
         :: acked_writes rest "127.0.0.1" 1111)%list
    /\ List.length rest = 1%nat
    /\ payloads (first :: rest) = fileData
    /\ TftpDownloadHandler.download
         (deliver_acks 1 (snd (TftpDownloadHandler.startProtocol noWorld testHandler)))
       = Some d
    /\ Download.done d = true
    /\ Download.blockno d = 2.
Proof.
  apply (supervised_transfer_delivers_content noWorld testHandler fileData 1 8
           eq_refl).
  - intros k Hk. cbn [Download.fileSystem Download.__init__ testHandler
      TftpDownloadHandler.fileSystem TftpDownloadHandler.makeConnection
      TftpDownloadHandler.__init__ TftpDownloadHandler.readRequest testRequest
      ReadRequest.filename].
    unfold testProvider, DummyFileSystem.as_provider, DummyFileSystem.getFileData.
    rewrite DummyFileSystem_loop_first.
    replace (Z.max 0 ((k - 1) * 512)) with ((k - 1) * BLOCK_SIZE)
      by (unfold BLOCK_SIZE; lia).
    reflexivity.
  - reflexivity.
  - lia.
  - lia.
Defined.

(** ** Errors of the file-system provider *)

(** X22: with the directory listed, [FileSystem.getFileData] raises the
    file-not-found [BadDataError] exactly for the names that are not
    listed.  A listed name never does: it gives a block, or the [IOError] of
    a file that cannot be opened (a listed sub-directory, say) or of a seek
    before the start of the file (a block number below 1). *)
Theorem file_not_found_iff_unlisted (w : OS.world) (self : FileSystem.t)
  (requestedFilename : string) (blockno : Z) (names : list string) :
  OS.listdir w (FileSystem.directoryPath self) = Return names ->
  (fst (FileSystem.getFileData w self requestedFilename blockno)
   = Raise (BadDataError "File not found.")
   <-> ~ In requestedFilename names)
  /\ (In requestedFilename names ->
      (OS.assoc (Py.path_join (FileSystem.directoryPath self) requestedFilename)
         (OS.files w) = None
       \/ blockno < 1 ->
       fst (FileSystem.getFileData w self requestedFilename blockno)
       = Raise IOError)
      /\ (forall content,
             OS.assoc (Py.path_join (FileSystem.directoryPath self)
                         requestedFilename) (OS.files w) = Some content ->
             1 <= blockno ->
             exists data,
               fst (FileSystem.getFileData w self requestedFilename blockno)
               = Return data
               /\ (String.length data <= 512)%nat)).
Proof.
  intros L. unfold FileSystem.getFileData. rewrite L.
  destruct (in_dec string_dec requestedFilename names) as [Hin|Hout].
  - rewrite getFileData_loop_listed by assumption.
    unfold FileSystem.readBlock.
    destruct (OS.assoc (Py.path_join (FileSystem.directoryPath self)
                          requestedFilename) (OS.files w)) as [content|] eqn:A.
    + destruct (Z.ltb_spec ((blockno - 1) * BLOCK_SIZE) 0) as [H|H];
        unfold BLOCK_SIZE in H; cbn [fst]; split.
      * split; [discriminate | tauto].
      * intros _. split; [reflexivity|]. intros c _ Hb. lia.
      * split; [discriminate | tauto].
      * intros _. split; [intros [?|?]; [discriminate | lia]|].
        intros c _ Hb. eexists. split; [reflexivity|].
        rewrite slice_length. change (Z.to_nat BLOCK_SIZE) with 512%nat.
        apply Nat.le_min_l.
    + cbn [fst]. split.
      * split; [discriminate | tauto].
      * intros _. split; [reflexivity | discriminate].
  - rewrite getFileData_loop_not_found by assumption. cbn [fst]. split.
    + tauto.
    + tauto.
Qed.

Lemma file_not_found_iff_unlisted_witness :
  fst (FileSystem.getFileData servedWorld (FileSystem.__init__ None) "sub" 1)
  = Raise IOError.
Proof.
  apply (proj1 (proj2 (file_not_found_iff_unlisted servedWorld
                         (FileSystem.__init__ None) "sub" 1 ["woo.txt"; "sub"]
                         eq_refl)
                  (or_intror (or_introl eq_refl)))).
  left. reflexivity.
Defined.

(** ** Completion and block numbers over calls that may raise *)



(** At block number 65535 the next message cannot be encoded: the call
    raises [struct.error], and [done] has been set all the same when the
    payload the provider returned is short. *)
Lemma done_set_though_encoding_fails (self : Download.t) (data : string) :
  Download.blockno self = 65535 ->
  Download.fileSystem self (Download.filename self) 65536 = Return (PyStr data) ->
  exists self',
    Download.makeNextDataMessage self = (Raise struct_error, self')
    /\ Download.blockno self' = 65536
    /\ Download.done self'
       = Download.done self || (Z.of_nat (String.length data) <? BLOCK_SIZE).
Proof.
  intros B P. rewrite makeNextDataMessage_eq, nextData_eq, B. cbv zeta.
  change (65535 + 1) with 65536. rewrite P.
  change (intToBytes 65536) with (@Raise string struct_error).
  eexists. split; [reflexivity|].
  destruct (Z.of_nat (String.length data) <? BLOCK_SIZE); cbn;
    [now rewrite orb_true_r | now rewrite orb_false_r].
Qed.



(** C5, as amended: a session starts at block number 0 and every call of
    [makeNextDataMessage], whether it returns or raises, takes the block
    number up by exactly one: after [N] calls it is [N].  A message that a
    call returns starts with the DATA opcode and carries the block number
    the session has at that moment.  So after [N] calls that all returned
    the block number is [N], and the message of call number [k], counted
    from 1, carries [k]. *)
Theorem blockno_counts_calls (w : OS.world) (readRequest : ReadRequest.t)
  (host : string) (port : Z) (fs : option provider) (N : nat) :
  let self := Download.__init__ w readRequest host port fs in
  Download.blockno self = 0
  /\ Download.blockno (after_calls Download.makeNextDataMessage N self)
     = Z.of_nat N
  /\ Download.blockno
       (snd (Download.makeNextDataMessage
               (after_calls Download.makeNextDataMessage N self)))
     = Z.of_nat N + 1
  /\ (forall m self',
         Download.makeNextDataMessage
           (after_calls Download.makeNextDataMessage N self) = (Return m, self') ->
         Download.blockno self' = Z.of_nat (S N)
         /\ Py.slice_to 2 m = opcodeMap DATA
         /\ bytesToInt (Py.slice 2 2 m) = Return (Download.blockno self'))
  /\ (forall msgs self',
         produce N self = (Return msgs, self') ->
         Download.blockno self' = Z.of_nat N
         /\ List.length msgs = N
         /\ forall k, (k < N)%nat ->
              exists m,
                nth_error msgs k = Some m
                /\ Py.slice_to 2 m = opcodeMap DATA
                /\ bytesToInt (Py.slice 2 2 m) = Return (Z.of_nat (S k))).
Proof.
  intros self.
  assert (B : forall n,
             Download.blockno (after_calls Download.makeNextDataMessage n self)
             = Z.of_nat n).
  { intros n. rewrite after_makeNextDataMessage_blockno. reflexivity. }
  split; [reflexivity|]. split; [apply B|]. split; [|split].
  - rewrite makeNextDataMessage_state, nextData_blockno, B. reflexivity.
  - intros m self' H. apply message_block_number in H as (Hb & Ho & Hd).
    rewrite B in Hb. repeat split; auto. lia.
  - intros msgs self' H. apply produce_Return in H as (-> & Hl & Hk).
    split; [apply B|]. split; [exact Hl|].
    intros k Hlt. destruct (Hk k Hlt) as (m & Hm & Hn).
    exists m. apply message_block_number in Hm as (_ & Ho & Hd).
    rewrite B in Hd. auto.
Qed.

Lemma blockno_counts_calls_witness :
  exists msgs self',
    produce 2 testDownload = (Return msgs, self')
    /\ Download.blockno self' = 2
    /\ List.length msgs = 2%nat.
Proof.
  destruct (produce 2 testDownload) as [[msgs|e] self'] eqn:E;
    [|vm_compute in E; discriminate].
  exists msgs, self'. split; [reflexivity|].
  pose proof (proj2 (proj2 (proj2 (proj2
                (blockno_counts_calls noWorld testRequest "127.0.0.1" 1111
                   (Some testProvider) 2))))
                msgs self' E) as H.
  exact (conj (proj1 H) (proj1 (proj2 H))).
Defined.

(** A provider that fails on the first block: the first call raises and
    returns no message, the second is the first to return one; the session
    is then at block number 2 after a single successful call, and that
    first message carries block number 2. *)
Lemma failed_call_takes_block_number :
  exists self1 m self2,
    Download.makeNextDataMessage flakyDownload = (Raise IOError, self1)
    /\ Download.blockno self1 = 1
    /\ Download.makeNextDataMessage self1 = (Return m, self2)
    /\ Download.blockno self2 = 2
    /\ bytesToInt (Py.slice 2 2 m) = Return 2.
Proof.
  eexists. eexists. eexists.
  split; [vm_compute; reflexivity|].
  split; [reflexivity|].
  split; [vm_compute; reflexivity|].
  split; reflexivity.
Qed.
